(** * TrayRunner GUI: configuration tree engine

    A shallow embedding of the Python sources under [gui/trayrunner_gui]:
    - [models/schema.py]     : the pydantic node model ([Node], [Config]);
    - [models/validators.py] : [ConfigValidator.validate_config];
    - [models/yaml_io.py]    : [YAMLHandler.load_yaml] / [save_yaml];
    - [tree_panel.py]        : the drag-and-drop block move of
                               [ConfigTreeModel] and [TreePanel.duplicate_selected];
    - [services/save_coordinator.py] : [SaveCoordinator];
    - [services/reloader.py] : [reload_trayrunner]. *)

From Stdlib Require Import String Ascii List Bool ZArith Lia.
From stdpp Require Import base gmap strings list pretty.

Import ListNotations.
Open Scope string_scope.
Open Scope list_scope.

(* ------------------------------------------------------------------ *)
(** ** Python helpers *)

Module Py.

(** ASCII whitespace as seen by [str.strip()]. *)
Definition is_ws (c : ascii) : bool :=
  match nat_of_ascii c with
  | 9 | 10 | 11 | 12 | 13 | 32 => true
  | _ => false
  end.

Fixpoint drop_ws (l : list ascii) : list ascii :=
  match l with
  | [] => []
  | c :: r => if is_ws c then drop_ws r else l
  end.

(** [s.strip()] *)
Definition strip (s : string) : string :=
  string_of_list_ascii (rev (drop_ws (rev (drop_ws (list_ascii_of_string s))))).

(** [str(i)] for a non-negative Python int. *)
Definition str_of_nat (i : nat) : string := pretty (N.of_nat i).

(** Normalisation of a slice bound [l[a:b]] for a list of length [n]. *)
Definition slice_idx (n i : Z) : Z :=
  if (i <? 0)%Z then Z.max 0 (i + n) else Z.min i n.

(** [l[a:b]] *)
Definition slice {A} (l : list A) (a b : Z) : list A :=
  let n := Z.of_nat (length l) in
  let a' := slice_idx n a in
  let b' := slice_idx n b in
  firstn (Z.to_nat (b' - a')) (skipn (Z.to_nat a') l).

(** [del l[a:b]] *)
Definition del_slice {A} (l : list A) (a b : Z) : list A :=
  let n := Z.of_nat (length l) in
  let a' := slice_idx n a in
  let b' := slice_idx n b in
  firstn (Z.to_nat a') l ++ skipn (Z.to_nat (Z.max a' b')) l.

(** Position used by [l.insert(i, x)]. *)
Definition insert_idx (n i : Z) : Z :=
  if (i <? 0)%Z then Z.max 0 (i + n) else Z.min i n.

(** [l.insert(i, x)] *)
Definition list_insert {A} (l : list A) (i : Z) (x : A) : list A :=
  let k := Z.to_nat (insert_idx (Z.of_nat (length l)) i) in
  firstn k l ++ x :: skipn k l.

(** Exceptions raised by the modelled code. *)
Inductive exn :=
| FileNotFoundError (msg : string)
| ValueError (msg : string)
| AttributeError (msg : string)
| NameError (msg : string).

Inductive result (A : Type) :=
| Ok (a : A)
| Err (e : exn).
Arguments Ok {A} a.
Arguments Err {A} e.

Definition bind {A B} (m : result A) (k : A -> result B) : result B :=
  match m with Ok a => k a | Err e => Err e end.

Global Instance result_ret : MRet result := fun A a => Ok a.
Global Instance result_bind : MBind result := fun A B k m => bind m k.

(** [s.startswith(p)] *)
Fixpoint startswith (s p : string) : bool :=
  match p, s with
  | EmptyString, _ => true
  | String c p', String d s' => Ascii.eqb c d && startswith s' p'
  | String _ _, EmptyString => false
  end.

Definition rev_str (s : string) : string :=
  string_of_list_ascii (rev (list_ascii_of_string s)).

(** [s.endswith(p)] *)
Definition endswith (s p : string) : bool := startswith (rev_str s) (rev_str p).

(** [p in s] for two strings. *)
Fixpoint contains (p s : string) : bool :=
  startswith s p || match s with EmptyString => false | String _ s' => contains p s' end.

(** [s.lower()]: the ASCII letters [A]..[Z]. *)
Definition lower_char (c : ascii) : ascii :=
  let n := nat_of_ascii c in
  if Nat.leb 65 n && Nat.leb n 90 then ascii_of_nat (n + 32) else c.

Definition lower (s : string) : string :=
  string_of_list_ascii (map lower_char (list_ascii_of_string s)).

End Py.

(* ------------------------------------------------------------------ *)
(** ** Node model ([models/schema.py]) *)

#[local] Set Warnings "-register-all".

(** [Node = Union[ItemNode, GroupNode, SeparatorNode]], discriminated by
    [type].  [env : Dict[str, str]] is kept as its item list. *)
Inductive Node :=
| ItemNode (id label cmd : string) (terminal confirm : bool)
    (env : list (string * string))
| GroupNode (id label : string) (items : list Node)
| SeparatorNode (id : string).

Record Config := mkConfig { items : list Node }.

Definition node_id (n : Node) : string :=
  match n with
  | ItemNode i _ _ _ _ _ | GroupNode i _ _ | SeparatorNode i => i
  end.

(** [ValidationError(type, location, message, field)] *)
Record ValidationError := mkVE {
  type : string;
  location : string;
  message : string;
  field : option string
}.

(* ------------------------------------------------------------------ *)
(** ** Validator ([models/validators.py]) *)

Module Validator.

(** Every [self.errors.append(e)] / [self.warnings.append(e)] of the
    validator, in the order the code performs them. *)
Inductive Emit :=
| ToErrors (e : ValidationError)
| ToWarnings (e : ValidationError).

Definition payload (x : Emit) : ValidationError :=
  match x with ToErrors e | ToWarnings e => e end.

Definition is_error_emit (x : Emit) : bool :=
  match x with ToErrors _ => true | ToWarnings _ => false end.

(** [not s or not s.strip()] *)
Definition blank (s : string) : bool := String.eqb (Py.strip s) "".

Definition err (loc msg fld : string) : Emit :=
  ToErrors (mkVE "error" loc msg (Some fld)).
Definition warn (loc msg fld : string) : Emit :=
  ToWarnings (mkVE "warning" loc msg (Some fld)).

(** [_validate_item].  [env] values are [str] by the schema, so the
    [not isinstance(value, str)] branch never fires. *)
Definition validate_item (label cmd : string) (env : list (string * string))
    (path : string) : list Emit :=
  (if blank label then [err path "Item label cannot be empty" "label"] else [])
  ++ (if blank cmd then [err path "Item command cannot be empty" "cmd"] else [])
  ++ concat (map (fun kv =>
       if blank (fst kv)
       then [err path "Environment variable key cannot be empty" ("env." +:+ fst kv)]
       else []) env).

(** [_check_duplicate_labels]: [labels] is the set seen so far. *)
Fixpoint check_dup_from (labels : list string) (i : nat) (l : list Node)
    (path : string) : list Emit :=
  match l with
  | [] => []
  | n :: r =>
      match n with
      | ItemNode _ lbl _ _ _ _ | GroupNode _ lbl _ =>
          (if existsb (String.eqb lbl) labels
           then [err (path +:+ ".items[" +:+ Py.str_of_nat i +:+ "]")
                     ("Duplicate label: '" +:+ lbl +:+ "'") "label"]
           else [])
          ++ check_dup_from (lbl :: labels) (S i) r path
      | SeparatorNode _ => check_dup_from labels (S i) r path
      end
  end.

Definition check_duplicate_labels (l : list Node) (path : string) : list Emit :=
  check_dup_from [] 0 l path.

Definition is_separator (n : Node) : bool :=
  match n with SeparatorNode _ => true | _ => false end.

(** [_validate_node] / [_validate_group]; [i] is the index in the parent. *)
Fixpoint validate_node (n : Node) (path : string) {struct n} : list Emit :=
  match n with
  | ItemNode _ label cmd _ _ env => validate_item label cmd env path
  | SeparatorNode _ => []
  | GroupNode _ label ch =>
      (if blank label then [err path "Group label cannot be empty" "label"] else [])
      ++ match ch with
         | [] => [warn path "Group has no items" "items"]
         | _ =>
             (fix go (i : nat) (l : list Node) : list Emit :=
                match l with
                | [] => []
                | c :: r =>
                    validate_node c (path +:+ ".items[" +:+ Py.str_of_nat i +:+ "]")
                    ++ go (S i) r
                end) 0 ch
             ++ check_duplicate_labels ch path
         end
  end.

(** One pass of [_validate_separator_placement] over [items]; a Group
    child is handed to [rec] with its location [path[i]]. *)
Definition sep_walk (rec : Node -> string -> list Emit) (l : list Node)
    (path : string) : list Emit :=
  let len := length l in
  (fix go (i : nat) (xs : list Node) {struct xs} : list Emit :=
     match xs with
     | [] => []
     | n :: r =>
         let loc := path +:+ "[" +:+ Py.str_of_nat i +:+ "]" in
         match n with
         | SeparatorNode _ =>
             (if Nat.eqb i 0
              then [warn loc "Separator at beginning has no visual effect" "type"] else [])
             ++ (if Nat.eqb i (len - 1)
                 then [warn loc "Separator at end has no visual effect" "type"] else [])
             ++ (match r with
                 | SeparatorNode _ :: _ =>
                     [warn loc "Back-to-back separators have no visual effect" "type"]
                 | _ => []
                 end)
         | GroupNode _ _ _ => rec n loc
         | ItemNode _ _ _ _ _ _ => []
         end ++ go (S i) r
     end) 0 l.

(** The recursive call [self._validate_separator_placement(node.items,
    f"{path}[{i}].items")] for a Group at [loc]. *)
Fixpoint sep_node (n : Node) (loc : string) {struct n} : list Emit :=
  match n with
  | GroupNode _ _ ch => sep_walk sep_node ch (loc +:+ ".items")
  | _ => []
  end.

Definition validate_separator_placement (l : list Node) (path : string) : list Emit :=
  sep_walk sep_node l path.

(** The appends performed by [validate_config], in program order. *)
Definition validate_emissions (c : Config) : list Emit :=
  match items c with
  | [] => [warn "root" "Configuration has no items" "items"]
  | l =>
      concat (imap (fun i n => validate_node n ("items[" +:+ Py.str_of_nat i +:+ "]")) l)
      ++ check_duplicate_labels l "root"
      ++ validate_separator_placement l "items"
  end.

(** The validator's state: [self.errors] and [self.warnings]. *)
Record VState := mkVState {
  errors : list ValidationError;
  warnings : list ValidationError
}.

Definition run_emit (x : Emit) (st : VState) : VState :=
  match x with
  | ToErrors e => mkVState (errors st ++ [e]) (warnings st)
  | ToWarnings e => mkVState (errors st) (warnings st ++ [e])
  end.

Definition run_emits (xs : list Emit) (st : VState) : VState :=
  fold_left (fun s x => run_emit x s) xs st.

(** [validate_config]: clear both lists, perform the appends, and
    [return self.errors + self.warnings]. *)
Definition validate_config (c : Config) : list ValidationError :=
  let st := run_emits (validate_emissions c) (mkVState [] []) in
  errors st ++ warnings st.

(** The validator's findings in the order they were emitted. *)
Definition emission_order (c : Config) : list ValidationError :=
  map payload (validate_emissions c).

Definition dangerous_commands : list string :=
  ["rm -rf"; "sudo rm"; "dd if="; "mkfs"; "fdisk"].

(** [validate_item_command(cmd)] *)
Definition validate_item_command (cmd : string) : list string :=
  if blank cmd then ["Command cannot be empty"]
  else
    let cmd := Py.strip cmd in
    (if Py.startswith cmd "|" || Py.endswith cmd "|"
     then ["Command appears to be a pipe fragment"] else [])
    ++ (if Py.contains "&&" cmd
           && negb (existsb (fun op => Py.contains op cmd) [";"; "|"; "&&"; "||"])
        then ["Command uses && but may need proper shell syntax"] else [])
    ++ concat (map (fun dangerous =>
         if Py.contains dangerous (Py.lower cmd)
         then ["Warning: Command contains potentially dangerous operation: " +:+ dangerous]
         else []) dangerous_commands).

(** The dict returned by [get_validation_summary]. *)
Record Summary := mkSummary {
  total_errors : nat;
  total_warnings : nat;
  is_valid : bool;
  summary_errors : list ValidationError
}.

(** [get_validation_summary(config)] *)
Definition get_validation_summary (c : Config) : Summary :=
  let errors := validate_config c in
  let error_count := length (List.filter (fun e => String.eqb (type e) "error") errors) in
  let warning_count := length (List.filter (fun e => String.eqb (type e) "warning") errors) in
  mkSummary error_count warning_count (Nat.eqb error_count 0) errors.

End Validator.

(* ------------------------------------------------------------------ *)
(** ** Persistence ([models/yaml_io.py]) *)

Module Persist.

(** The plain data [model_dump] produces and [ruamel.yaml] reads back. *)
Inductive yval :=
| YNull
| YStr (s : string)
| YBool (b : bool)
| YList (l : list yval)
| YMap (kvs : list (string * yval)).

(** A file on disk, seen through [self.yaml.load]: either the document
    it parses to, or text the YAML parser rejects.  [self.yaml.dump]
    writes a document that [self.yaml.load] reads back as [Doc]. *)
Inductive fdata := Doc (v : yval) | Unparsable.

(** [pathlib.Path]: directory and file name. *)
Record Path := mkPath { parent : string; name : string }.

Definition key (p : Path) : string * string := (parent p, name p).

(** The file system: (directory, name) to file. *)
Abbreviation FS := (gmap (string * string) fdata).

Fixpoint rfind_dot (l : list ascii) (k : nat) (best : option nat) : option nat :=
  match l with
  | [] => best
  | c :: r => rfind_dot r (S k) (if Ascii.eqb c "." then Some k else best)
  end.

(** [Path.suffix]: [i = name.rfind('.')], a suffix only when
    [0 < i < len(name) - 1]. *)
Definition suffix_start (nm : string) : option nat :=
  match rfind_dot (list_ascii_of_string nm) 0 None with
  | Some i => if Nat.ltb 0 i && Nat.ltb i (String.length nm - 1) then Some i else None
  | None => None
  end.

Definition stem (nm : string) : string :=
  match suffix_start nm with
  | Some i => substring 0 i nm
  | None => nm
  end.

(** [path.with_suffix(s)] *)
Definition with_suffix (p : Path) (s : string) : Path :=
  mkPath (parent p) (stem (name p) +:+ s).

(** [model_dump()] of one node: every field, in declaration order. *)
Fixpoint dump_node (n : Node) : yval :=
  match n with
  | ItemNode i label cmd t c env =>
      YMap [("type", YStr "item"); ("id", YStr i); ("label", YStr label);
            ("cmd", YStr cmd); ("terminal", YBool t); ("confirm", YBool c);
            ("env", YMap (map (fun kv => (fst kv, YStr (snd kv))) env))]
  | GroupNode i label ch =>
      YMap [("type", YStr "group"); ("id", YStr i); ("label", YStr label);
            ("items", YList (map dump_node ch))]
  | SeparatorNode i => YMap [("type", YStr "separator"); ("id", YStr i)]
  end.

Definition model_dump (c : Config) : yval :=
  YMap [("items", YList (map dump_node (items c)))].

(** [_remove_ids_recursive]: drop every key ['id'] of every dict. *)
Fixpoint remove_ids (v : yval) : yval :=
  match v with
  | YMap kvs =>
      YMap ((fix go (l : list (string * yval)) : list (string * yval) :=
               match l with
               | [] => []
               | (k, x) :: r =>
                   if String.eqb k "id" then go r else (k, remove_ids x) :: go r
               end) kvs)
  | YList l => YList (map remove_ids l)
  | _ => v
  end.

(** [_preserve_comments]: rebuilds the top-level mapping with
    [CommentedMap]/[CommentedSeq] wrappers around the same data. *)
Definition preserve_comments (new_data : yval) (original : yval) : Py.result yval :=
  match new_data with
  | YMap kvs =>
      Py.Ok (YMap (map (fun kv =>
        (fst kv, match snd kv with
                 | YList l => YList (map (fun it => match it with
                                                    | YMap m => YMap m
                                                    | x => x
                                                    end) l)
                 | YMap m => YMap m
                 | x => x
                 end)) kvs))
  | _ => Py.Err (Py.AttributeError "items")
  end.

(** [uuid4()] as used by [generate_node_id]; the [k]-th fresh identifier. *)
Definition gen_node_id (k : nat) : string := "uuid-" +:+ Py.str_of_nat k.

Fixpoint lookup (k : string) (kvs : list (string * yval)) : option yval :=
  match kvs with
  | [] => None
  | (k', v) :: r => if String.eqb k k' then Some v else lookup k r
  end.

Definition verr {A} : Py.result A := Py.Err (Py.ValueError "validation error").

(** [id: str = Field(default_factory=generate_node_id)] *)
Definition v_id (v : option yval) (k : nat) : Py.result (string * nat) :=
  match v with
  | None => Py.Ok (gen_node_id k, S k)
  | Some (YStr s) => Py.Ok (s, k)
  | Some _ => verr
  end.

(** A required [str] field run through [validate_label] / [validate_cmd]. *)
Definition v_text (v : option yval) : Py.result string :=
  match v with
  | Some (YStr s) => if Validator.blank s then verr else Py.Ok (Py.strip s)
  | _ => verr
  end.

Definition v_bool (v : option yval) : Py.result bool :=
  match v with
  | None => Py.Ok false
  | Some (YBool b) => Py.Ok b
  | Some _ => verr
  end.

Fixpoint v_env_items (kvs : list (string * yval)) : Py.result (list (string * string)) :=
  match kvs with
  | [] => Py.Ok []
  | (k, YStr s) :: r => rest ← v_env_items r; Py.Ok ((k, s) :: rest)
  | _ :: _ => verr
  end.

Definition v_env (v : option yval) : Py.result (list (string * string)) :=
  match v with
  | None => Py.Ok []
  | Some (YMap kvs) => v_env_items kvs
  | Some _ => verr
  end.

(** Pydantic validation of a [Node] (discriminator [type]); [k] numbers
    the identifiers drawn from [generate_node_id].  [fuel] bounds the
    nesting depth of the document. *)
Fixpoint validate_node (fuel : nat) (v : yval) (k : nat) : Py.result (Node * nat) :=
  match fuel with
  | O => verr
  | S f =>
      let validate_list :=
        fix go (l : list yval) (k : nat) : Py.result (list Node * nat) :=
          match l with
          | [] => Py.Ok ([], k)
          | x :: r => '(n, k1) ← validate_node f x k;
                      '(ns, k2) ← go r k1;
                      Py.Ok (n :: ns, k2)
          end in
      match v with
      | YMap kvs =>
          match lookup "type" kvs with
          | Some (YStr t) =>
              if String.eqb t "item" then
                '(i, k1) ← v_id (lookup "id" kvs) k;
                label ← v_text (lookup "label" kvs);
                cmd ← v_text (lookup "cmd" kvs);
                term ← v_bool (lookup "terminal" kvs);
                conf ← v_bool (lookup "confirm" kvs);
                env ← v_env (lookup "env" kvs);
                Py.Ok (ItemNode i label cmd term conf env, k1)
              else if String.eqb t "group" then
                '(i, k1) ← v_id (lookup "id" kvs) k;
                label ← v_text (lookup "label" kvs);
                match lookup "items" kvs with
                | None => Py.Ok (GroupNode i label [], k1)
                | Some (YList l) =>
                    '(ch, k2) ← validate_list l k1;
                    Py.Ok (GroupNode i label ch, k2)
                | Some _ => verr
                end
              else if String.eqb t "separator" then
                '(i, k1) ← v_id (lookup "id" kvs) k;
                Py.Ok (SeparatorNode i, k1)
              else verr
          | _ => verr
          end
      | _ => verr
      end
  end.

Fixpoint ydepth (v : yval) : nat :=
  match v with
  | YList l => S (list_max (map ydepth l))
  | YMap kvs => S (list_max (map (fun kv => ydepth (snd kv)) kvs))
  | _ => 1
  end.

(** [Config.model_validate(data)] *)
Definition model_validate (data : yval) (k : nat) : Py.result Config :=
  match data with
  | YMap kvs =>
      match lookup "items" kvs with
      | None => Py.Ok (mkConfig [])
      | Some (YList l) =>
          '(ns, _) ← (fix go (l : list yval) (k : nat) : Py.result (list Node * nat) :=
                        match l with
                        | [] => Py.Ok ([], k)
                        | x :: r => '(n, k1) ← validate_node (ydepth data) x k;
                                    '(ns, k2) ← go r k1;
                                    Py.Ok (n :: ns, k2)
                        end) l k;
          Py.Ok (mkConfig ns)
      | Some _ => verr
      end
  | _ => verr
  end.

(** [load_yaml]: the loaded config and the original document (the
    loader context), [None] for a missing file or an empty document.
    [seed] numbers the identifiers generated during validation. *)
Definition load_yaml (fs : FS) (path : Path) (seed : nat)
    : Py.result (Config * option yval) :=
  match fs !! key path with
  | None => Py.Ok (mkConfig [], None)
  | Some Unparsable => Py.Err (Py.ValueError "Failed to load YAML")
  | Some (Doc YNull) => Py.Ok (mkConfig [], None)
  | Some (Doc data) =>
      match model_validate data seed with
      | Py.Ok c => Py.Ok (c, Some data)
      | Py.Err _ => Py.Err (Py.ValueError "Failed to load YAML")
      end
  end.

(** [create_backup]; [ts] is [datetime.now().strftime('%Y%m%d-%H%M%S')]. *)
Definition create_backup (fs : FS) (path : Path) (ts : string) : Py.result (Path * FS) :=
  match fs !! key path with
  | None => Py.Err (Py.FileNotFoundError "Cannot backup non-existent file")
  | Some d =>
      let backup_path := with_suffix path (".yaml.bak-" +:+ ts) in
      Py.Ok (backup_path, <[key backup_path := d]> fs)
  end.

(** [save_yaml]: the outcome and the file system afterwards.  [write_ok]
    says whether writing, flushing and fsyncing the temporary file
    succeed. *)
Definition save_yaml (fs : FS) (path : Path) (config : Config)
    (original_yaml : option yval) (ts : string) (write_ok : bool)
    : Py.result Path * FS :=
  match create_backup fs path ts with
  | Py.Err e => (Py.Err e, fs)
  | Py.Ok (backup_path, fs1) =>
      let restore (fs' : FS) : FS :=
        match fs' !! key backup_path with
        | Some d => <[key path := d]> fs'
        | None => fs'
        end in
      let data := remove_ids (model_dump config) in
      let new_data := match original_yaml with
                      | Some o => preserve_comments data o
                      | None => Py.Ok data
                      end in
      match new_data with
      | Py.Err _ => (Py.Err (Py.ValueError "Failed to save YAML"), restore fs1)
      | Py.Ok nd =>
          if write_ok then
            let temp_path := with_suffix path ".tmp" in
            let fs2 := <[key temp_path := Doc nd]> fs1 in
            (Py.Ok backup_path, <[key path := Doc nd]> (delete (key temp_path) fs2))
          else (Py.Err (Py.ValueError "Failed to save YAML"), restore fs1)
      end
  end.

(** Equivalence of trees up to identifiers. *)
Fixpoint erase_ids (n : Node) : Node :=
  match n with
  | ItemNode _ l c t f e => ItemNode "" l c t f e
  | GroupNode _ l ch => GroupNode "" l (map erase_ids ch)
  | SeparatorNode _ => SeparatorNode ""
  end.

End Persist.

(* ------------------------------------------------------------------ *)
(** ** [main_window.py]: saving *)

Module MainWindow.

(** The part of [MainWindow]'s state that saving reads and writes. *)
Record MW := mkMW {
  config : Config;
  config_path : option Persist.Path;
  original_yaml : option Persist.yval;
  has_unsaved_changes : bool
}.

(** The [try] block of [save_config] once [self.config_path] is [p]:
    [save_yaml], then [load_yaml] for the next [original_yaml]; an
    exception only shows a message box. *)
Definition save_to (fs : Persist.FS) (mw : MW) (p : Persist.Path) (ts : string)
    (write_ok : bool) (seed : nat) : MW * Persist.FS :=
  match Persist.save_yaml fs p (config mw) (original_yaml mw) ts write_ok with
  | (Py.Err _, fs') => (mw, fs')
  | (Py.Ok _, fs') =>
      match Persist.load_yaml fs' p seed with
      | Py.Ok (_, oy) => (mkMW (config mw) (config_path mw) oy false, fs')
      | Py.Err _ => (mw, fs')
      end
  end.

(** [save_config()]; without a path it runs [save_as_config()], where
    [dialog] is the file chosen in the dialog ([None] when cancelled). *)
Definition save_config (fs : Persist.FS) (mw : MW) (dialog : option Persist.Path)
    (ts : string) (write_ok : bool) (seed : nat) : MW * Persist.FS :=
  match config_path mw with
  | Some p => save_to fs mw p ts write_ok seed
  | None =>
      match dialog with
      | None => (mw, fs)
      | Some p =>
          save_to fs (mkMW (config mw) (Some p) (original_yaml mw) (has_unsaved_changes mw))
                  p ts write_ok seed
      end
  end.

End MainWindow.

(* ------------------------------------------------------------------ *)
(** ** Save coordinator ([services/save_coordinator.py]) *)

Module Coord.

(** [SaveWindow]; times are [time.monotonic()] readings in milliseconds. *)
Record SaveWindow := mkWindow {
  until : Z;
  inode : option Z;
  size : option Z;
  mtime_ns : option Z
}.

(** The result of [os.stat(path)]. *)
Record Stat := mkStat { st_ino : Z; st_size : Z; st_mtime_ns : Z }.

(** [self._saves], keyed by path. *)
Abbreviation Saves := (gmap string SaveWindow).

(** [begin_save(path, window_s)] at time [now]. *)
Definition begin_save (saves : Saves) (path : string) (now window_ms : Z) : Saves :=
  <[path := mkWindow (now + window_ms) None None None]> saves.

(** [end_save(path)] at time [now]; [st] is [os.stat(path)], [None] when
    it raises [FileNotFoundError]. *)
Definition end_save (saves : Saves) (path : string) (now : Z) (st : option Stat) : Saves :=
  match st with
  | None => saves
  | Some s =>
      match saves !! path with
      | Some _ => <[path := mkWindow (now + 1500) (Some (st_ino s)) (Some (st_size s))
                                     (Some (st_mtime_ns s))]> saves
      | None => saves
      end
  end.

(** [should_ignore_change(path)] at time [now], with [cur] the current
    [os.stat(path)]; returns the answer and the new [self._saves]. *)
Definition should_ignore_change (saves : Saves) (path : string) (now : Z)
    (cur : option Stat) : bool * Saves :=
  match saves !! path with
  | None => (false, saves)
  | Some w =>
      if (until w <? now)%Z then (false, delete path saves)
      else match inode w with
           | None => (true, saves)
           | Some ino =>
               match cur with
               | None => (true, saves)
               | Some s =>
                   if (Z.eqb (st_ino s) ino
                       && bool_decide (Some (st_size s) = size w)
                       && bool_decide (Some (st_mtime_ns s) = mtime_ns w))
                   then (true, saves)
                   else (true, saves)
               end
           end
  end.

End Coord.

(* ------------------------------------------------------------------ *)
(** ** [services/file_watch.py] *)

Module FileWatch.

(** A watchdog file-system event. *)
Record FSEvent := mkEvent { is_directory : bool; src_path : string }.

(** [ConfigFileHandler.on_modified(event)].  [mtime] is
    [os.path.getmtime(event.src_path)] in milliseconds and
    [last_modified] the handler's dict; the result is the path handed to
    [self.callback], if any. *)
Definition on_modified (last_modified : gmap string Z) (event : FSEvent) (mtime : Z)
    : option string * gmap string Z :=
  if is_directory event then (None, last_modified)
  else if negb (Py.endswith (src_path event) ".yaml" || Py.endswith (src_path event) ".yml")
  then (None, last_modified)
  else
    let current_time := mtime in
    let debounced := match last_modified !! src_path event with
                     | Some t => (current_time - t <? 1000)%Z
                     | None => false
                     end in
    if debounced then (None, last_modified)
    else (Some (src_path event), <[src_path event := current_time]> last_modified).

(** A run of the handler: the callback calls with the mtime seen. *)
Fixpoint run_handler (last_modified : gmap string Z) (evs : list (FSEvent * Z))
    : list (string * Z) :=
  match evs with
  | [] => []
  | (ev, t) :: r =>
      let '(d, lm) := on_modified last_modified ev t in
      match d with
      | Some p => (p, t) :: run_handler lm r
      | None => run_handler lm r
      end
  end.

(** [FileWatcher._check_file_changes()]: [cur] is the file's [st_mtime]
    ([None] when it does not exist), [last] the entry of
    [self.last_modified] for the watched path; the boolean says whether
    [file_changed] is emitted. *)
Definition check_file_changes (last cur : option Z) : bool * option Z :=
  match cur with
  | None => (false, last)
  | Some t => (match last with Some t0 => (t0 <? t)%Z | None => false end, Some t)
  end.

(** Number of [file_changed] emissions over a run of polls. *)
Fixpoint run_polls (last : option Z) (curs : list (option Z)) : nat :=
  match curs with
  | [] => 0
  | c :: r => let '(e, l) := check_file_changes last c in (if e then 1 else 0) + run_polls l r
  end.

(** [ConfigFileWatcher.pause] / [resume] on [self._paused]. *)
Inductive wop := Pause | Resume.

Definition apply_op (paused : nat) (o : wop) : nat :=
  match o with
  | Pause => S paused
  | Resume => Nat.max 0 (paused - 1)
  end.

Definition apply_ops (paused : nat) (os : list wop) : nat := fold_left apply_op os paused.

(** [ConfigFileWatcher._on_file_changed(file_path)] at time [now], with
    [cur] the file's stat: whether [change_callback] runs, and the save
    coordinator's table afterwards. *)
Definition on_file_changed (paused : nat) (saves : Coord.Saves) (file_path : string)
    (now : Z) (cur : option Coord.Stat) : bool * Coord.Saves :=
  if negb (Nat.eqb paused 0) then (false, saves)
  else let '(ign, saves') := Coord.should_ignore_change saves file_path now cur in
       (negb ign, saves').

End FileWatch.

(* ------------------------------------------------------------------ *)
(** ** Reload client ([services/reloader.py]) *)

Module Reload.

(** What the client does, in order. *)
Inductive event :=
| SocketAttempt
| CliAttempt
| Delay (ms : Z).

(** The outcome of the [n]-th call of [_reload_via_socket] and of
    [_reload_via_cli] (local socket and subprocess are external). *)
Section Client.
Variable via_socket : nat -> bool * string.
Variable via_cli : nat -> bool * string.

(** [reload_trayrunner()]: the events it performs and its result. *)
Definition reload_trayrunner : list event * (bool * string) :=
  let '(ok, msg) := via_socket 0 in
  if ok then ([SocketAttempt], (true, msg))
  else
    let '(ok_cli, msg_cli) := via_cli 0 in
    if ok_cli then ([SocketAttempt; CliAttempt], (true, msg_cli))
    else ([SocketAttempt; CliAttempt],
          (false, "socket: " +:+ msg +:+ "; CLI: " +:+ msg_cli)).
End Client.



Definition count_cli (evs : list event) : nat :=
  length (List.filter (fun e => match e with CliAttempt => true | _ => false end) evs).

Definition has_delay (evs : list event) : bool :=
  existsb (fun e => match e with Delay _ => true | _ => false end) evs.

End Reload.

(* ------------------------------------------------------------------ *)
(** ** Tree model ([tree_panel.py]) *)

Module Tree.

(** Node objects live in a heap; a Group's [items] is a list of node
    references, so [src_list] and [dst_list] may be the same list object. *)
Abbreviation loc := nat.

Inductive HNode :=
| HItem (id label cmd : string) (terminal confirm : bool) (env : list (string * string))
| HGroup (id label : string) (items : list loc)
| HSep (id : string).

(** [ConfigTreeModel]: [self.root_items] and the node objects. *)
Record TM := mkTM { root_items : list loc; heap : gmap nat HNode }.

Definition hid (n : HNode) : string :=
  match n with HItem i _ _ _ _ _ | HGroup i _ _ | HSep i => i end.

(** A [QModelIndex]: invalid, or [(row, internalPointer)]. *)
Abbreviation QIndex := (option (nat * loc)).

Definition is_sep (h : gmap nat HNode) (x : loc) : bool :=
  match h !! x with Some (HSep _) => true | _ => false end.

(** [parent(index)]: scans the root items and their direct children. *)
Definition parent (st : TM) (index : QIndex) : QIndex :=
  match index with
  | None => None
  | Some (_, node) =>
      (fix go (i : nat) (rs : list loc) : QIndex :=
         match rs with
         | [] => None
         | r :: rs' =>
             if Nat.eqb r node then None
             else match heap st !! r with
                  | Some (HGroup _ _ ch) =>
                      if existsb (Nat.eqb node) ch then Some (i, r) else go (S i) rs'
                  | _ => go (S i) rs'
                  end
         end) 0 (root_items st)
  end.

(** [_get_parent_id]: the second definition in the class body, which
    replaces the first one: the id of the PARENT of [index]. *)
Definition get_parent_id (st : TM) (index : QIndex) : string :=
  match index with
  | None => "ROOT"
  | Some _ =>
      match parent st index with
      | None => "ROOT"
      | Some (_, p) => match heap st !! p with Some n => hid n | None => "ROOT" end
      end
  end.

(** [_find_node_by_id]; [fuel] bounds the recursion depth. *)
Fixpoint find_node_by_id (fuel : nat) (h : gmap nat HNode) (node_id : string)
    (its : list loc) : option loc :=
  match fuel with
  | O => None
  | S f =>
      (fix go (xs : list loc) : option loc :=
         match xs with
         | [] => None
         | x :: r =>
             match h !! x with
             | None => go r
             | Some n =>
                 if String.eqb (hid n) node_id then Some x
                 else match n with
                      | HGroup _ _ ch =>
                          match find_node_by_id f h node_id ch with
                          | Some y => Some y
                          | None => go r
                          end
                      | _ => go r
                      end
             end
         end) its
  end.

(** Which list object a name refers to: [self.root_items], the [items]
    of the Group at [g], or a fresh [[]] that nothing else sees. *)
Inductive handle := HRoot | HItems (g : loc) | HFresh.

(** [_get_children_list(parent_id)] *)
Definition get_children_list (st : TM) (parent_id : string) : handle :=
  if String.eqb parent_id "ROOT" then HRoot
  else match find_node_by_id (S (size (heap st))) (heap st) parent_id (root_items st) with
       | Some l => match heap st !! l with Some (HGroup _ _ _) => HItems l | _ => HFresh end
       | None => HFresh
       end.

Definition get_list (st : TM) (h : handle) : list loc :=
  match h with
  | HRoot => root_items st
  | HItems g => match heap st !! g with Some (HGroup _ _ ch) => ch | _ => [] end
  | HFresh => []
  end.

(** Mutation of the list object [h] in place. *)
Definition set_list (st : TM) (h : handle) (l : list loc) : TM :=
  match h with
  | HRoot => mkTM l (heap st)
  | HItems g =>
      match heap st !! g with
      | Some (HGroup i lb _) => mkTM (root_items st) (<[g := HGroup i lb l]> (heap st))
      | _ => st
      end
  | HFresh => st
  end.

(** End of the run that follows a Separator: the index of the next
    Separator, or the length of the list. *)
Fixpoint run_end (h : gmap nat HNode) (xs : list loc) (e : nat) : nat :=
  match xs with
  | [] => e
  | x :: r => if is_sep h x then e else run_end h r (S e)
  end.

(** [_drag_range_for(parent_id, row)] *)
Definition drag_range_for (st : TM) (parent_id : string) (row : nat) : nat * nat :=
  let children := get_list st (get_children_list st parent_id) in
  match nth_error children row with
  | None => (row, S row)
  | Some node =>
      if is_sep (heap st) node then (row, run_end (heap st) (skipn (S row) children) (S row))
      else (row, S row)
  end.

(** The JSON payload of the MIME data. *)
Record Payload := mkPayload { src_parent : string; start : Z; end_ : Z }.

(** [mimeData([index])] *)
Definition mimeData (st : TM) (index : QIndex) : option Payload :=
  match index with
  | None => None
  | Some (row, _) =>
      let parent_id := get_parent_id st index in
      let '(s, e) := drag_range_for st parent_id row in
      Some (mkPayload parent_id (Z.of_nat s) (Z.of_nat e))
  end.

Inductive DropAction := MoveAction | CopyAction.

(** [canDropMimeData]; [data = None] when the MIME type is missing. *)
Definition canDropMimeData (st : TM) (data : option Payload) (action : DropAction)
    (row : Z) (parent_index : QIndex) : bool :=
  match data, action with
  | Some _, MoveAction =>
      match parent_index with
      | None => true
      | Some (_, pl) =>
          match heap st !! pl with
          | Some (HSep _) => false
          | Some (HGroup _ _ _) => true
          | _ => negb (row <? 0)%Z
          end
      end
  | _, _ => false
  end.

(** [for i, node in enumerate(block): dst_list.insert(row + i, node)] *)
Fixpoint insert_block (st : TM) (h : handle) (row i : Z) (block : list loc) : TM :=
  match block with
  | [] => st
  | x :: r =>
      insert_block (set_list st h (Py.list_insert (get_list st h) (row + i) x)) h row (i + 1) r
  end.

Definition is_group_with_id (st : TM) (gid : string) (x : loc) : bool :=
  match heap st !! x with
  | Some (HGroup i _ _) => String.eqb gid i
  | _ => false
  end.

(** [dropMimeData(data, action, row, column, parent)] *)
Definition dropMimeData (st : TM) (data : option Payload) (action : DropAction)
    (row : Z) (parent_index : QIndex) : bool * TM :=
  match action, data with
  | MoveAction, Some pl =>
      let src_parent_id := src_parent pl in
      let src_start := start pl in
      let src_end := end_ pl in
      let dst_parent_id := get_parent_id st parent_index in
      let hs := get_children_list st src_parent_id in
      let hd := get_children_list st dst_parent_id in
      let row := if (row <? 0)%Z then Z.of_nat (length (get_list st hd)) else row in
      let block := Py.slice (get_list st hs) src_start src_end in
      if existsb (is_group_with_id st dst_parent_id) block then (false, st)
      else
        let st1 := set_list st hs (Py.del_slice (get_list st hs) src_start src_end) in
        let row := if String.eqb src_parent_id dst_parent_id && (src_start <? row)%Z
                   then (row - (src_end - src_start))%Z else row in
        (true, insert_block st1 hd row 0 block)
  | _, _ => (false, st)
  end.

(** [clone_node(node, id_factory, label_deduper)] on the deep copy;
    [id_factory k] is its [k]-th call. *)
Fixpoint assign_ids (id_factory : nat -> Py.result string) (n : Node) (k : nat)
    : Py.result (Node * nat) :=
  match n with
  | ItemNode _ l c t f e => i ← id_factory k; Py.Ok (ItemNode i l c t f e, S k)
  | SeparatorNode _ => i ← id_factory k; Py.Ok (SeparatorNode i, S k)
  | GroupNode _ l ch =>
      i ← id_factory k;
      '(ch', k') ← (fix go (xs : list Node) (k : nat) : Py.result (list Node * nat) :=
                      match xs with
                      | [] => Py.Ok ([], k)
                      | x :: r => '(x', k1) ← assign_ids id_factory x k;
                                  '(r', k2) ← go r k1;
                                  Py.Ok (x' :: r', k2)
                      end) ch (S k);
      Py.Ok (GroupNode i l ch', k')
  end.

Definition is_digit (c : ascii) : bool :=
  let n := nat_of_ascii c in Nat.leb 48 n && Nat.leb n 57.

Fixpoint span {A} (p : A -> bool) (l : list A) : list A * list A :=
  match l with
  | x :: r => if p x then let '(a, b) := span p r in (x :: a, b) else ([], l)
  | [] => ([], [])
  end.

Definition digits_value (ds : list ascii) : nat :=
  fold_left (fun acc c => acc * 10 + (nat_of_ascii c - 48)) ds 0.

(** [re.search(r'\(copy(?:\s+(\d+))?\)$', label)]: [Some (prefix, n)]
    when it matches, with [prefix] the text before ["(copy"] and [n] the
    value of group 1 ([None] when absent). *)
Definition copy_suffix (label : string) : option (string * option nat) :=
  let rv := rev (list_ascii_of_string label) in
  let rcopy := rev (list_ascii_of_string "(copy") in
  match rv with
  | ")"%char :: r =>
      let '(ds, r1) := span is_digit r in
      let '(ws, r2) := span Py.is_ws r1 in
      match ds, ws with
      | [], _ =>
          if bool_decide (firstn 5 r = rcopy)
          then Some (string_of_list_ascii (rev (skipn 5 r)), None) else None
      | _ :: _, _ :: _ =>
          if bool_decide (firstn 5 r2 = rcopy)
          then Some (string_of_list_ascii (rev (skipn 5 r2)), Some (digits_value (rev ds)))
          else None
      | _ :: _, [] => None
      end
  | _ => None
  end.

(** [_add_copy_suffix(label, label_deduper)] *)
Definition add_copy_suffix (label : string) (label_deduper : string -> Py.result string)
    : Py.result string :=
  match copy_suffix label with
  | Some (prefix, g) =>
      let counter := match g with Some n => n | None => 1 end + 1 in
      label_deduper (prefix +:+ "(copy " +:+ Py.str_of_nat counter +:+ ")")
  | None => label_deduper (label +:+ " (copy)")
  end.

Definition clone_node (node : Node) (id_factory : nat -> Py.result string)
    (label_deduper : string -> Py.result string) : Py.result Node :=
  '(cloned, _) ← assign_ids id_factory node 0;
  match cloned with
  | ItemNode i l c t f e =>
      if String.eqb l "" then Py.Ok cloned
      else l' ← add_copy_suffix l label_deduper; Py.Ok (ItemNode i l' c t f e)
  | GroupNode i l ch =>
      if String.eqb l "" then Py.Ok cloned
      else l' ← add_copy_suffix l label_deduper; Py.Ok (GroupNode i l' ch)
  | SeparatorNode _ => Py.Ok cloned
  end.

(** [ConfigTreeModel.generate_id]: [str(uuid.uuid4())], but [uuid] is
    not imported by [tree_panel.py]. *)
Definition generate_id (_ : nat) : Py.result string :=
  Py.Err (Py.NameError "name 'uuid' is not defined").

(** The parent objects [duplicate_selected] works with. *)
Inductive ParentRef := PRoot | PNode (l : loc).

#[global] Instance ParentRef_eq_dec : EqDecision ParentRef.
Proof. solve_decision. Defined.

(** [self.model.root]: [ConfigTreeModel] never sets that attribute. *)
Definition model_root : Py.result ParentRef :=
  Py.Err (Py.AttributeError "'ConfigTreeModel' object has no attribute 'root'").

(** [children_of(parent_node)]: evaluates [self.root] first. *)
Definition children_of (st : TM) (parent_node : ParentRef) : Py.result handle :=
  r ← model_root;
  if bool_decide (parent_node = r) then Py.Ok HRoot
  else match parent_node with
       | PNode l => match heap st !! l with
                    | Some (HGroup _ _ _) => Py.Ok (HItems l)
                    | _ => Py.Ok HFresh
                    end
       | PRoot => Py.Ok HFresh
       end.

(** [unique_label(desired, parent_node)] *)
Definition unique_label (st : TM) (desired : string) (parent_node : ParentRef)
    : Py.result string :=
  h ← children_of st parent_node;
  let sibling_labels :=
    omap (fun x => match heap st !! x with
                   | Some (HItem _ l _ _ _ _) | Some (HGroup _ l _) => Some l
                   | _ => None
                   end) (get_list st h) in
  if existsb (String.eqb desired) sibling_labels then
    let fix find (fuel counter : nat) : string :=
      match fuel with
      | O => desired +:+ " " +:+ Py.str_of_nat counter
      | S f =>
          if existsb (String.eqb (desired +:+ " " +:+ Py.str_of_nat counter)) sibling_labels
          then find f (S counter) else desired +:+ " " +:+ Py.str_of_nat counter
      end in
    Py.Ok (find (length sibling_labels) 2)
  else Py.Ok desired.

(** [deepcopy(node)] of the subtree at [l]; running out of [fuel] is
    Python's recursion limit. *)
Fixpoint read_node (fuel : nat) (h : gmap nat HNode) (l : loc) : option Node :=
  match fuel with
  | O => None
  | S f =>
      match h !! l with
      | Some (HItem i lb c t cf e) => Some (ItemNode i lb c t cf e)
      | Some (HSep i) => Some (SeparatorNode i)
      | Some (HGroup i lb ch) =>
          ch' ← mapM (read_node f h) ch; Some (GroupNode i lb ch')
      | None => None
      end
  end.

Definition fresh_loc (h : gmap nat HNode) : loc :=
  S (list_max (map fst (map_to_list h))).

(** Allocation of a new node object (and its children). *)
Fixpoint alloc_node (n : Node) (h : gmap nat HNode) : loc * gmap nat HNode :=
  match n with
  | ItemNode i l c t f e => let x := fresh_loc h in (x, <[x := HItem i l c t f e]> h)
  | SeparatorNode i => let x := fresh_loc h in (x, <[x := HSep i]> h)
  | GroupNode i l ch =>
      let '(xs, h1) := (fix go (ys : list Node) (h : gmap nat HNode)
                          : list loc * gmap nat HNode :=
                          match ys with
                          | [] => ([], h)
                          | y :: r => let '(x, h') := alloc_node y h in
                                      let '(xs, h'') := go r h' in (x :: xs, h'')
                          end) ch h in
      let x := fresh_loc h1 in (x, <[x := HGroup i l xs]> h1)
  end.

(** [TreePanel.duplicate_selected] for [currentIndex() = index]. *)
Definition duplicate_selected (st : TM) (index : QIndex) : Py.result TM :=
  match index with
  | None => Py.Ok st
  | Some (current_row, l) =>
      parent_node ← match parent st index with
                    | Some (_, p) => Py.Ok (PNode p)
                    | None => model_root
                    end;
      match heap st !! l with
      | None => Py.Ok st
      | Some _ =>
          match read_node (S (size (heap st))) (heap st) l with
          | None => Py.Err (Py.ValueError "maximum recursion depth exceeded")
          | Some source_node =>
              new_node ← clone_node source_node generate_id
                           (fun lb => unique_label st lb parent_node);
              h ← children_of st parent_node;
              let '(x, hp) := alloc_node new_node (heap st) in
              let st' := mkTM (root_items st) hp in
              Py.Ok (set_list st' h (Py.list_insert (get_list st' h)
                                       (Z.of_nat current_row + 1) x))
          end
      end
  end.


(** [del children[row]] *)
Definition del_index {A} (l : list A) (row : nat) : list A := firstn row l ++ skipn (S row) l.

(** [TreePanel.delete_selected()] for [currentIndex() = index];
    [reply_yes] is the answer to the confirmation box. *)
Definition delete_selected (st : TM) (index : QIndex) (reply_yes : bool) : TM :=
  match index with
  | None => st
  | Some (row, l) =>
      match heap st !! l with
      | None => st
      | Some _ =>
          if negb reply_yes then st
          else
            let parent_index := parent st index in
            let parent_id := get_parent_id st parent_index in
            let h := get_children_list st parent_id in
            let children := get_list st h in
            if Nat.ltb row (length children) then set_list st h (del_index children row)
            else st
      end
  end.

(** [TreePanel._move_node_to_position]: after [_get_parent_id] it calls
    [self.model._get_drag_range], which [ConfigTreeModel] does not define. *)
Definition move_node_to_position (st : TM) (index parent_index : QIndex) (target_row : Z)
    : Py.result TM :=
  let parent_id := get_parent_id st index in
  Py.Err (Py.AttributeError "'ConfigTreeModel' object has no attribute '_get_drag_range'").

(** [TreePanel._move_selected_up()] (Alt+Up) *)
Definition move_selected_up (st : TM) (index : QIndex) : Py.result TM :=
  match index with
  | None => Py.Ok st
  | Some (row, _) =>
      if Nat.eqb row 0 then Py.Ok st
      else move_node_to_position st index (parent st index) (Z.of_nat row - 1)%Z
  end.

(** [TreePanel._move_selected_down()] (Alt+Down) *)
Definition move_selected_down (st : TM) (index : QIndex) : Py.result TM :=
  match index with
  | None => Py.Ok st
  | Some (row, _) =>
      let parent_index := parent st index in
      let max_row : Z :=
        match parent_index with
        | Some (_, p) =>
            match heap st !! p with
            | Some (HGroup _ _ ch) => (Z.of_nat (length ch) - 1)%Z
            | Some _ => 0%Z
            | None => (Z.of_nat (length (root_items st)) - 1)%Z
            end
        | None => (Z.of_nat (length (root_items st)) - 1)%Z
        end in
      if (max_row <=? Z.of_nat row)%Z then Py.Ok st
      else move_node_to_position st index parent_index (Z.of_nat row + 2)%Z
  end.

End Tree.

(* ------------------------------------------------------------------ *)
(** ** Auxiliary definitions for the proofs *)

(** The label a node contributes to [_check_duplicate_labels]. *)
Definition node_label (n : Node) : option string :=
  match n with
  | ItemNode _ l _ _ _ _ | GroupNode _ l _ => Some l
  | SeparatorNode _ => None
  end.

(** Induction on [Node] that goes through the children of a Group. *)
Fixpoint Node_deep_ind (P : Node -> Prop)
    (fi : forall i l c t f e, P (ItemNode i l c t f e))
    (fg : forall i l ch, Forall P ch -> P (GroupNode i l ch))
    (fs : forall i, P (SeparatorNode i)) (n : Node) : P n :=
  match n with
  | ItemNode i l c t f e => fi i l c t f e
  | GroupNode i l ch =>
      fg i l ch ((fix go (xs : list Node) : Forall P xs :=
                    match xs with
                    | [] => @List.Forall_nil _ P
                    | x :: r => @List.Forall_cons _ P x r (Node_deep_ind P fi fg fs x) (go r)
                    end) ch)
  | SeparatorNode i => fs i
  end.

(** Every error is typed ["error"], every warning ["warning"]. *)
Definition emit_typed (x : Validator.Emit) : Prop :=
  match x with
  | Validator.ToErrors e => type e = "error"
  | Validator.ToWarnings e => type e = "warning"
  end.

(** Identifiers of a node and of its descendants, in preorder. *)
Fixpoint node_ids (n : Node) : list string :=
  match n with
  | ItemNode i _ _ _ _ _ => [i]
  | GroupNode i _ ch => i :: concat (map node_ids ch)
  | SeparatorNode i => [i]
  end.


(** The label [clone_node] rewrites ([""] for a Separator), and the node
    with another label. *)
Definition label_of (n : Node) : string :=
  match n with ItemNode _ l _ _ _ _ | GroupNode _ l _ => l | SeparatorNode _ => "" end.

Definition with_label (n : Node) (l : string) : Node :=
  match n with
  | ItemNode i _ c t f e => ItemNode i l c t f e
  | GroupNode i _ ch => GroupNode i l ch
  | SeparatorNode i => SeparatorNode i
  end.

Section AuxPersist.
Import Persist.

(** Induction on [yval] through lists and mappings. *)
Fixpoint yval_deep_ind (P : yval -> Prop)
    (fn : P YNull) (fs : forall s, P (YStr s)) (fb : forall b, P (YBool b))
    (fl : forall l, Forall P l -> P (YList l))
    (fm : forall kvs, Forall (fun kv => P (snd kv)) kvs -> P (YMap kvs)) (v : yval) : P v :=
  match v with
  | YNull => fn
  | YStr s => fs s
  | YBool b => fb b
  | YList l =>
      fl l ((fix go (xs : list yval) : Forall P xs :=
               match xs with
               | [] => @List.Forall_nil _ P
               | x :: r => @List.Forall_cons _ P x r (yval_deep_ind P fn fs fb fl fm x) (go r)
               end) l)
  | YMap kvs =>
      fm kvs ((fix go (xs : list (string * yval)) : Forall (fun kv => P (snd kv)) xs :=
                 match xs with
                 | [] => @List.Forall_nil _ (fun kv => P (snd kv))
                 | x :: r => @List.Forall_cons _ (fun kv => P (snd kv)) x r
                               (yval_deep_ind P fn fs fb fl fm (snd x)) (go r)
                 end) kvs)
  end.

(** No mapping, at any depth, has a key ['id']. *)
Fixpoint no_id_keys (v : yval) : bool :=
  match v with
  | YMap kvs => forallb (fun kv => negb (String.eqb (fst kv) "id") && no_id_keys (snd kv)) kvs
  | YList l => forallb no_id_keys l
  | _ => true
  end.


Section VList.
Variable f : nat.
End VList.
End AuxPersist.

Section AuxTree.
Variable id_factory : nat -> Py.result string.
(** The loop over a Group's children in [Tree.assign_ids]. *)
Fixpoint assign_list (xs : list Node) (k : nat) : Py.result (list Node * nat) :=
  match xs with
  | [] => Py.Ok ([], k)
  | x :: r => '(x', k1) ← Tree.assign_ids id_factory x k;
              '(r', k2) ← assign_list r k1;
              Py.Ok (x' :: r', k2)
  end.
End AuxTree.

(** Consecutive values at least 1000 ms apart. *)
Fixpoint gaps_ok (l : list Z) : Prop :=
  match l with
  | x :: ((y :: _) as r) => (x + 1000 <= y)%Z /\ gaps_ok r
  | _ => True
  end.

(** The file-name test of [ConfigFileHandler.on_modified]. *)
Definition yaml_name (p : string) : bool := Py.endswith p ".yaml" || Py.endswith p ".yml".

(** Number of strict increases between consecutive values. *)
Fixpoint increases (l : list Z) : nat :=
  match l with
  | x :: ((y :: _) as r) => (if (x <? y)%Z then 1 else 0) + increases r
  | _ => 0
  end.

(* ================================================================== *)
(** * Proofs *)

(* ------------------------------------------------------------------ *)
(** ** Validator: order of the returned list *)

Section ValidatorOrder.
Import Validator.

Lemma run_emits_split (xs : list Emit) (st : VState) :
  run_emits xs st =
  mkVState (errors st ++ map payload (List.filter is_error_emit xs))
           (warnings st ++ map payload (List.filter (fun x => negb (is_error_emit x)) xs)).
Proof.
  revert st; induction xs as [|x xs IH]; intros st; simpl.
  - destruct st; simpl; rewrite !app_nil_r; reflexivity.
  - unfold run_emits in *; simpl; rewrite IH.
    destruct x; simpl; rewrite <- !app_assoc; reflexivity.
Qed.

Example validate_cex_value :
  validate_config
    (mkConfig [GroupNode "g" "G" [];
               ItemNode "a" "A" "make" false false [];
               ItemNode "b" "A" "make" false false []])
  = [mkVE "error" "root.items[2]" "Duplicate label: 'A'" (Some "label");
     mkVE "warning" "items[0]" "Group has no items" (Some "items")].
Proof. vm_compute. reflexivity. Qed.

(** C4 (counterexample): the returned list is not the emission order.
    A Group with no children emits a warning before a later duplicate
    label emits an error; [validate_config] returns the error first. *)
Lemma validate_config_not_emission_order :
  let c := mkConfig [GroupNode "g" "G" [];
                     ItemNode "a" "A" "make" false false [];
                     ItemNode "b" "A" "make" false false []] in
  validate_config c <> emission_order c.
Proof. vm_compute. discriminate. Qed.

(** C4 (amended): [validate_config] returns every error in emission order,
    followed by every warning in emission order. *)
Theorem validate_config_errors_then_warnings (c : Config) :
  validate_config c =
  map payload (List.filter is_error_emit (validate_emissions c))
  ++ map payload (List.filter (fun x => negb (is_error_emit x)) (validate_emissions c)).
Proof.
  unfold validate_config; rewrite run_emits_split; reflexivity.
Qed.

End ValidatorOrder.

(* ------------------------------------------------------------------ *)
(** ** Persistence *)

Section PersistProofs.
Import Persist.

Definition cfg_path : Path := mkPath "/home/u/.config/trayrunner" "commands.yaml".

Example with_suffix_backup :
  with_suffix cfg_path ".yaml.bak-20260101-120000"
  = mkPath "/home/u/.config/trayrunner" "commands.yaml.bak-20260101-120000".
Proof. reflexivity. Qed.

(** The configuration of [tests/test_yaml_roundtrip.py]. *)
Definition test_config : Config :=
  mkConfig [ItemNode "i1" "Test Item" "echo Hello" false false [];
            SeparatorNode "s1";
            GroupNode "g1" "Test Group"
              [ItemNode "i2" "Nested Item" "ls -la" true false [];
               SeparatorNode "s2";
               ItemNode "i3" "Another Item" "pwd" false true []];
            SeparatorNode "s3";
            ItemNode "i4" "Final Item" "date" false false []].

Example test_yaml_roundtrip_model :
  let fs0 : FS := <[key cfg_path := Doc YNull]> ∅ in
  match save_yaml fs0 cfg_path test_config None "20260101-120000" true with
  | (Py.Ok _, fs1) =>
      match load_yaml fs1 cfg_path 0 with
      | Py.Ok (c, _) => map erase_ids (items c) = map erase_ids (items test_config)
      | Py.Err _ => False
      end
  | (Py.Err _, _) => False
  end.
Proof. vm_compute. reflexivity. Qed.

(** C1 (code_bug): [save_yaml] calls [create_backup] unconditionally,
    so a save to a path that does not exist yet raises
    [FileNotFoundError], writes nothing, and a later [load_yaml] still
    sees no file. *)
Theorem save_yaml_new_path_raises (fs : FS) (p : Path) (c : Config)
    (orig : option yval) (ts : string) (write_ok : bool)
    (Hnew : fs !! key p = None) :
  save_yaml fs p c orig ts write_ok
    = (Py.Err (Py.FileNotFoundError "Cannot backup non-existent file"), fs)
  /\ load_yaml (snd (save_yaml fs p c orig ts write_ok)) p 0 = Py.Ok (mkConfig [], None).
Proof.
  unfold save_yaml, create_backup; rewrite Hnew; split; [reflexivity|].
  simpl; unfold load_yaml; rewrite Hnew; reflexivity.
Qed.

Lemma save_yaml_new_path_raises_witness :
  (∅ : FS) !! key cfg_path = None /\
  save_yaml ∅ cfg_path test_config None "20260101-120000" true
    = (Py.Err (Py.FileNotFoundError "Cannot backup non-existent file"), ∅)
  /\ load_yaml (snd (save_yaml ∅ cfg_path test_config None "20260101-120000" true))
       cfg_path 0 = Py.Ok (mkConfig [], None).
Proof.
  assert (H : (∅ : FS) !! key cfg_path = None) by reflexivity.
  split; [exact H|].
  exact (save_yaml_new_path_raises ∅ cfg_path test_config None "20260101-120000" true H).
Defined.

(** C10: an existing file whose document is empty loads as an empty
    configuration with no loader context, exactly like a missing file. *)
Theorem load_yaml_empty_document (fs : FS) (p : Path) (seed : nat)
    (Hempty : fs !! key p = Some (Doc YNull)) :
  load_yaml fs p seed = Py.Ok (mkConfig [], None)
  /\ load_yaml (delete (key p) fs) p seed = load_yaml fs p seed.
Proof.
  unfold load_yaml; rewrite Hempty, lookup_delete_eq; split; reflexivity.
Qed.

Lemma load_yaml_empty_document_witness :
  load_yaml (<[key cfg_path := Doc YNull]> ∅) cfg_path 0 = Py.Ok (mkConfig [], None)
  /\ load_yaml (delete (key cfg_path) (<[key cfg_path := Doc YNull]> ∅)) cfg_path 0
     = load_yaml (<[key cfg_path := Doc YNull]> ∅) cfg_path 0.
Proof.
  apply (load_yaml_empty_document (<[key cfg_path := Doc YNull]> ∅) cfg_path 0).
  apply lookup_insert_eq.
Defined.

(** An Item whose environment has a variable named [id]. *)
Definition env_id_config : Config :=
  mkConfig [ItemNode "i1" "Run" "make" false false [("id", "42"); ("MODE", "fast")]].

(** C7 (code_bug): [_remove_ids_recursive] also deletes the environment
    variable [id], so save-then-load loses it. *)
Lemma save_load_drops_env_id :
  let fs0 : FS := <[key cfg_path := Doc YNull]> ∅ in
  match save_yaml fs0 cfg_path env_id_config None "20260101-120000" true with
  | (Py.Ok _, fs1) =>
      load_yaml fs1 cfg_path 0
      = Py.Ok (mkConfig [ItemNode "uuid-0" "Run" "make" false false [("MODE", "fast")]],
               Some (YMap [("items", YList [YMap [("type", YStr "item");
                  ("label", YStr "Run"); ("cmd", YStr "make");
                  ("terminal", YBool false); ("confirm", YBool false);
                  ("env", YMap [("MODE", YStr "fast")])]])]))
      /\ match load_yaml fs1 cfg_path 0 with
         | Py.Ok (c, _) => map erase_ids (items c) <> map erase_ids (items env_id_config)
         | Py.Err _ => False
         end
  | (Py.Err _, _) => False
  end.
Proof. vm_compute. split; [reflexivity | discriminate]. Qed.

End PersistProofs.

(* ------------------------------------------------------------------ *)
(** ** Save coordinator *)

Section CoordProofs.
Import Coord.

(** C9: right after [begin_save] and before any [end_save], a check no
    later than the deadline is ignored; a check after the deadline is not,
    the window is evicted, and every later check is reported. *)
Theorem should_ignore_within_and_after_window (saves : Saves) (path : string)
    (t0 window_ms now now' : Z) (cur cur' : option Stat) :
  (now <= t0 + window_ms ->
     should_ignore_change (begin_save saves path t0 window_ms) path now cur
     = (true, begin_save saves path t0 window_ms))%Z
  /\ (t0 + window_ms < now ->
     let r := should_ignore_change (begin_save saves path t0 window_ms) path now cur in
     r = (false, delete path (begin_save saves path t0 window_ms))
     /\ (snd r) !! path = None
     /\ should_ignore_change (snd r) path now' cur' = (false, snd r))%Z.
Proof.
  unfold should_ignore_change, begin_save; split; intros H.
  - rewrite lookup_insert_eq; simpl.
    destruct (Z.ltb_spec (t0 + window_ms) now); [lia | reflexivity].
  - rewrite lookup_insert_eq; simpl.
    destruct (Z.ltb_spec (t0 + window_ms) now); [|lia].
    simpl; rewrite lookup_delete_eq; repeat split.
Qed.

Lemma should_ignore_within_and_after_window_witness :
  (should_ignore_change (begin_save ∅ "/c.yaml" 1000 2000) "/c.yaml" 1500 None
     = (true, begin_save ∅ "/c.yaml" 1000 2000))
  /\ (should_ignore_change (begin_save ∅ "/c.yaml" 1000 2000) "/c.yaml" 3001 None
       = (false, delete "/c.yaml" (begin_save ∅ "/c.yaml" 1000 2000))).
Proof.
  destruct (should_ignore_within_and_after_window ∅ "/c.yaml" 1000 2000 1500 0 None None)
    as [H1 _].
  destruct (should_ignore_within_and_after_window ∅ "/c.yaml" 1000 2000 3001 0 None None)
    as [_ H2].
  split; [apply H1; lia | apply H2; lia].
Defined.

End CoordProofs.

(* ------------------------------------------------------------------ *)
(** ** Reload client *)

Section ReloadProofs.
Import Reload.

(** C3 (counterexample): with both transports failing, the fallback is
    tried once, without retry and without delay. *)
Lemma reload_no_cli_retry :
  let r := reload_trayrunner (fun _ => (false, "socket not found"))
                             (fun _ => (false, "CLI reload timeout")) in
  fst r = [SocketAttempt; CliAttempt]
  /\ count_cli (fst r) = 1 /\ has_delay (fst r) = false.
Proof. repeat split. Qed.

(** C3 (amended): after a failed socket attempt the CLI fallback is
    invoked exactly once with no delay; if it fails too, the message is
    ["socket: <msg>; CLI: <msg_cli>"]. *)
Theorem reload_single_fallback (via_socket via_cli : nat -> bool * string)
    (msg : string) (Hsock : via_socket 0 = (false, msg)) :
  fst (reload_trayrunner via_socket via_cli) = [SocketAttempt; CliAttempt]
  /\ (forall msg_cli, via_cli 0 = (false, msg_cli) ->
        snd (reload_trayrunner via_socket via_cli)
        = (false, "socket: " +:+ msg +:+ "; CLI: " +:+ msg_cli)).
Proof.
  unfold reload_trayrunner; rewrite Hsock; simpl.
  split.
  - destruct (via_cli 0) as [[|] m]; reflexivity.
  - intros m Hc; rewrite Hc; reflexivity.
Qed.

Lemma reload_single_fallback_witness :
  fst (reload_trayrunner (fun _ => (false, "socket not found"))
                         (fun _ => (false, "trayrunner not found on PATH")))
    = [SocketAttempt; CliAttempt]
  /\ snd (reload_trayrunner (fun _ => (false, "socket not found"))
                            (fun _ => (false, "trayrunner not found on PATH")))
    = (false, "socket: socket not found; CLI: trayrunner not found on PATH").
Proof.
  destruct (reload_single_fallback (fun _ => (false, "socket not found"))
              (fun _ => (false, "trayrunner not found on PATH")) "socket not found"
              eq_refl) as [H1 H2].
  split; [exact H1 | exact (H2 _ eq_refl)].
Defined.

End ReloadProofs.

(* ------------------------------------------------------------------ *)
(** ** Tree model: scenarios *)

Section TreeScenarios.
Import Tree.

Definition item (k : nat) : HNode :=
  HItem ("id" +:+ Py.str_of_nat k) ("Item " +:+ Py.str_of_nat k) "true" false false [].

(** Five root Items at references 1..5. *)
Definition st5 : TM :=
  mkTM [1; 2; 3; 4; 5]
       (<[1 := item 1]> (<[2 := item 2]> (<[3 := item 3]> (<[4 := item 4]>
          (<[5 := item 5]> ∅))))).

(** [Separator, Item a, Item b] at the root. *)
Definition st_sep : TM :=
  mkTM [1; 2; 3] (<[1 := HSep "s"]> (<[2 := item 2]> (<[3 := item 3]> ∅))).

(** [Group G [Group H []], Separator] at the root. *)
Definition st_grp : TM :=
  mkTM [1; 3] (<[1 := HGroup "g" "G" [2]]> (<[2 := HGroup "h" "H" []]>
                 (<[3 := HSep "s"]> ∅))).

Example st5_mime : mimeData st5 (Some (1, 2)) = Some (mkPayload "ROOT" 1 2).
Proof. vm_compute. reflexivity. Qed.

Example st5_move : root_items (snd (dropMimeData st5 (Some (mkPayload "ROOT" 1 2))
                                      MoveAction 4 None)) = [1; 3; 4; 2; 5].
Proof. vm_compute. reflexivity. Qed.

Example st_sep_mime : mimeData st_sep (Some (0, 1)) = Some (mkPayload "ROOT" 0 3).
Proof. vm_compute. reflexivity. Qed.

Example st_sep_move_in_block :
  dropMimeData st_sep (Some (mkPayload "ROOT" 0 3)) MoveAction 1 None
  = (true, mkTM [3; 2; 1] (heap st_sep)).
Proof. vm_compute. reflexivity. Qed.

Example st_grp_self :
  dropMimeData st_grp (mimeData st_grp (Some (0, 1))) MoveAction (-1) (Some (0, 1))
  = (true, mkTM [3; 1] (heap st_grp)).
Proof. vm_compute. reflexivity. Qed.

Example st5_dup : duplicate_selected st5 (Some (0, 1))
  = Py.Err (Py.AttributeError "'ConfigTreeModel' object has no attribute 'root'").
Proof. vm_compute. reflexivity. Qed.

Example copy_suffix_ex :
  add_copy_suffix "Build (copy 3)" Py.Ok = Py.Ok "Build (copy 4)"
  /\ add_copy_suffix "Build" Py.Ok = Py.Ok "Build (copy)"
  /\ add_copy_suffix "Build (copy)" Py.Ok = Py.Ok "Build (copy 2)".
Proof. vm_compute. repeat split. Qed.

End TreeScenarios.

(* ------------------------------------------------------------------ *)
(** ** Tree model: list-object lemmas *)

Section TreeLemmas.
Import Tree.

(** [h] names a list object of [st]. *)
Definition valid_handle (st : TM) (h : handle) : Prop :=
  match h with
  | HRoot => True
  | HItems g => exists i lb ch, heap st !! g = Some (HGroup i lb ch)
  | HFresh => False
  end.

Lemma get_set_list (st : TM) (h : handle) (l : list loc) :
  valid_handle st h -> get_list (set_list st h l) h = l.
Proof.
  destruct h as [|g|]; simpl; [reflexivity| |tauto].
  intros (i & lb & ch & Hg); rewrite Hg; simpl; rewrite lookup_insert_eq; reflexivity.
Qed.

Lemma set_list_valid (st : TM) (h : handle) (l : list loc) :
  valid_handle st h -> valid_handle (set_list st h l) h.
Proof.
  destruct h as [|g|]; simpl; [tauto| |tauto].
  intros (i & lb & ch & Hg); rewrite Hg; simpl.
  exists i, lb, l; apply lookup_insert_eq.
Qed.

Lemma set_set_list (st : TM) (h : handle) (l1 l2 : list loc) :
  valid_handle st h -> set_list (set_list st h l1) h l2 = set_list st h l2.
Proof.
  destruct h as [|g|]; simpl; [reflexivity| |tauto].
  intros (i & lb & ch & Hg); rewrite Hg; simpl; rewrite lookup_insert_eq.
  simpl; rewrite insert_insert_eq; reflexivity.
Qed.

Lemma set_get_list (st : TM) (h : handle) :
  valid_handle st h -> set_list st h (get_list st h) = st.
Proof.
  destruct st as [r hp]; destruct h as [|g|]; simpl; [reflexivity| |tauto].
  intros (i & lb & ch & Hg); rewrite Hg; rewrite insert_id by exact Hg; reflexivity.
Qed.

Lemma get_children_list_valid (st : TM) (pid : string) :
  get_children_list st pid <> HFresh -> valid_handle st (get_children_list st pid).
Proof.
  unfold get_children_list.
  destruct (String.eqb pid "ROOT"); [simpl; tauto|].
  destruct (find_node_by_id _ _ _ _) as [l|]; [|tauto].
  destruct (heap st !! l) as [[| i lb ch |]|] eqn:Hl; try tauto.
  intros _; simpl; eauto.
Qed.

Lemma list_insert_at {A} (L : list A) (k : nat) (x : A) :
  k <= length L -> Py.list_insert L (Z.of_nat k) x = firstn k L ++ x :: skipn k L.
Proof.
  intros Hk; unfold Py.list_insert, Py.insert_idx.
  destruct (Z.ltb_spec (Z.of_nat k) 0); [lia|].
  rewrite Z.min_l by lia; rewrite Nat2Z.id; reflexivity.
Qed.

Lemma firstn_app_length {A} (l1 l2 : list A) : firstn (length l1) (l1 ++ l2) = l1.
Proof. induction l1 as [|a l1 IH]; simpl; [reflexivity | now rewrite IH]. Qed.

Lemma skipn_app_length {A} (l1 l2 : list A) : skipn (length l1) (l1 ++ l2) = l2.
Proof. induction l1 as [|a l1 IH]; simpl; [reflexivity | exact IH]. Qed.

Lemma insert_block_spec (block : list loc) :
  forall (st : TM) (h : handle) (A pre B : list loc) (r i : Z),
  valid_handle st h ->
  get_list st h = A ++ pre ++ B ->
  (r + i = Z.of_nat (length A + length pre))%Z ->
  insert_block st h r i block = set_list st h (A ++ pre ++ block ++ B).
Proof.
  induction block as [|x block IH]; intros st h A pre B r i Hv Hget Hri; simpl.
  - rewrite <- Hget, set_get_list by exact Hv; reflexivity.
  - rewrite Hget, Hri, app_assoc, <- length_app.
    rewrite list_insert_at by (rewrite !length_app; lia).
    rewrite firstn_app_length, skipn_app_length.
    rewrite (IH _ h A (pre ++ [x]) B r (i + 1)%Z).
    + rewrite set_set_list by exact Hv; rewrite <- !app_assoc; reflexivity.
    + apply set_list_valid, Hv.
    + rewrite get_set_list by exact Hv; rewrite <- !app_assoc; reflexivity.
    + rewrite length_app; simpl; lia.
Qed.

Lemma slice_in_range {A} (l : list A) (s e : Z) :
  (0 <= s <= e)%Z -> (e <= Z.of_nat (length l))%Z ->
  Py.slice l s e = firstn (Z.to_nat (e - s)) (skipn (Z.to_nat s) l)
  /\ Py.del_slice l s e = firstn (Z.to_nat s) l ++ skipn (Z.to_nat e) l.
Proof.
  intros Hse He; unfold Py.slice, Py.del_slice, Py.slice_idx.
  destruct (Z.ltb_spec s 0); [lia|]; destruct (Z.ltb_spec e 0); [lia|].
  rewrite (Z.min_l s), (Z.min_l e), Z.max_r by lia; split; reflexivity.
Qed.

End TreeLemmas.

(* ------------------------------------------------------------------ *)
(** ** Tree model: moves *)

Section TreeMoves.
Import Tree.

(** C8: a move inside one list whose destination row lies after the
    dragged block: the row is lowered by the block length, then the
    block is inserted there, in order, into the list without it. *)
Theorem drop_same_parent_after_block (st : TM) (pid : string) (P : QIndex)
    (s e row : Z)
    (Hdst : get_parent_id st P = pid)
    (Hh : get_children_list st pid <> HFresh)
    (Hs : (0 <= s < e)%Z)
    (Hrow : (e <= row <= Z.of_nat (length (get_list st (get_children_list st pid))))%Z)
    (Hok : existsb (is_group_with_id st pid)
             (Py.slice (get_list st (get_children_list st pid)) s e) = false) :
  dropMimeData st (Some (mkPayload pid s e)) MoveAction row P
  = (true, set_list st (get_children_list st pid)
             (let l := get_list st (get_children_list st pid) in
              let rest := Py.del_slice l s e in
              let k := Z.to_nat (row - (e - s)) in
              firstn k rest ++ Py.slice l s e ++ skipn k rest)).
Proof.
  unfold dropMimeData; cbn [src_parent start end_].
  rewrite Hdst.
  set (h := get_children_list st pid) in *.
  set (l := get_list st h) in *.
  pose proof (get_children_list_valid st pid Hh) as Hv; fold h in Hv.
  destruct (Z.ltb_spec row 0); [lia|].
  rewrite Hok, String.eqb_refl.
  destruct (Z.ltb_spec s row); [|lia]; simpl.
  destruct (slice_in_range l s e ltac:(lia) ltac:(lia)) as [_ Hdel].
  set (rest := Py.del_slice l s e) in *.
  set (k := Z.to_nat (row - (e - s))).
  assert (Hlen : length rest = (Z.to_nat s + (length l - Z.to_nat e))%nat).
  { rewrite Hdel, length_app, length_firstn, length_skipn; lia. }
  assert (Hk : (k <= length rest)%nat) by (unfold k; lia).
  rewrite (insert_block_spec _ (set_list st h rest) h (firstn k rest) [] (skipn k rest)).
  - rewrite set_set_list by exact Hv; reflexivity.
  - apply set_list_valid, Hv.
  - rewrite get_set_list by exact Hv; simpl; symmetry; apply firstn_skipn.
  - rewrite length_firstn; simpl; unfold k; lia.
Qed.

Lemma drop_same_parent_after_block_witness :
  dropMimeData st5 (Some (mkPayload "ROOT" 1 2)) MoveAction 4 None
  = (true, set_list st5 HRoot [1; 3; 4; 2; 5]).
Proof.
  rewrite (drop_same_parent_after_block st5 "ROOT" None 1 2 4).
  - reflexivity.
  - reflexivity.
  - discriminate.
  - lia.
  - vm_compute; split; discriminate.
  - reflexivity.
Defined.

(** C2 (code_bug): dropping Group [G] onto itself is not rejected.  The
    effective [_get_parent_id] returns the id of the PARENT of the drop
    target ("ROOT" here), so the guard [dst_parent_id == node.id] never
    sees [G]'s id; the drop is accepted and reorders the root list. *)
Lemma drop_group_onto_itself_accepted :
  mimeData st_grp (Some (0, 1)) = Some (mkPayload "ROOT" 0 1)
  /\ get_parent_id st_grp (Some (0, 1)) = "ROOT"
  /\ canDropMimeData st_grp (mimeData st_grp (Some (0, 1))) MoveAction (-1) (Some (0, 1))
     = true
  /\ dropMimeData st_grp (mimeData st_grp (Some (0, 1))) MoveAction (-1) (Some (0, 1))
     = (true, mkTM [3; 1] (heap st_grp))
  /\ root_items st_grp = [1; 3].
Proof. vm_compute. repeat split. Qed.

Lemma run_end_spec (h : gmap nat HNode) (xs : list loc) :
  forall e0, exists n, run_end h xs e0 = (e0 + n)%nat /\ (n <= length xs)%nat
    /\ Forall (fun x => is_sep h x = false) (firstn n xs)
    /\ (n = length xs \/ exists y, nth_error xs n = Some y /\ is_sep h y = true).
Proof.
  induction xs as [|x xs IH]; intros e0; simpl.
  - exists 0%nat; repeat split; [lia | lia | constructor | left; reflexivity].
  - destruct (is_sep h x) eqn:Hx.
    + exists 0%nat; repeat split; [lia | lia | constructor |].
      right; exists x; split; [reflexivity | exact Hx].
    + destruct (IH (S e0)) as (n & Hr & Hn & Hf & Hend).
      exists (S n); repeat split; [lia | lia | simpl; constructor; assumption |].
      destruct Hend as [Hend | (y & Hy & Hsy)]; [left; lia | right; exists y; auto].
Qed.

(** The part of C5 that holds: for a Separator at [row],
    [_drag_range_for] returns [(row, e)] where every sibling strictly
    between is not a Separator and [e] is the next Separator or the end. *)
Lemma drag_range_for_separator (st : TM) (pid : string) (row : nat) (x : loc) :
  let children := get_list st (get_children_list st pid) in
  nth_error children row = Some x -> is_sep (heap st) x = true ->
  exists e, drag_range_for st pid row = (row, e)
    /\ (row < e <= length children)%nat
    /\ Forall (fun y => is_sep (heap st) y = false) (firstn (e - S row) (skipn (S row) children))
    /\ (e = length children \/ exists y, nth_error children e = Some y /\ is_sep (heap st) y = true).
Proof.
  intros children Hx Hs.
  unfold drag_range_for; fold children; rewrite Hx, Hs.
  destruct (run_end_spec (heap st) (skipn (S row) children) (S row)) as (n & Hr & Hn & Hf & Hend).
  assert (Hrow : (row < length children)%nat) by (apply nth_error_Some; congruence).
  rewrite length_skipn in Hn.
  exists (S row + n)%nat; rewrite Hr; repeat split; [lia | lia | |].
  - replace (S row + n - S row)%nat with n by lia; exact Hf.
  - destruct Hend as [Hend | (y & Hy & Hsy)].
    + left; rewrite length_skipn in Hend; lia.
    + right; exists y; split; [|exact Hsy].
      rewrite nth_error_skipn in Hy; rewrite <- Hy; f_equal; lia.
Qed.

(** C5 (code_bug): the row adjustment tests [row > src_start] instead of
    [row >= src_end].  Dragging the Separator of [Separator, a, b] and
    dropping it between [Separator] and [a] lowers the row to -2, the
    three [insert] calls wrap around, and the block comes back reversed. *)
Lemma drop_separator_block_inside_itself :
  mimeData st_sep (Some (0, 1)) = Some (mkPayload "ROOT" 0 3)
  /\ canDropMimeData st_sep (mimeData st_sep (Some (0, 1))) MoveAction 1 None = true
  /\ dropMimeData st_sep (mimeData st_sep (Some (0, 1))) MoveAction 1 None
     = (true, mkTM [3; 2; 1] (heap st_sep))
  /\ root_items st_sep = [1; 2; 3].
Proof. vm_compute. repeat split. Qed.

End TreeMoves.

Section TreeDuplicate.
Import Tree.

Lemma clone_node_raises (n : Node) (dedup : string -> Py.result string) :
  exists e, clone_node n generate_id dedup = Py.Err e.
Proof. destruct n; eexists; reflexivity. Qed.

(** C6 (code_bug): for every tree and every valid selected index,
    [duplicate_selected] raises instead of inserting a copy.  A root
    node reaches [self.model.root] (AttributeError); a nested node
    reaches [self.model.generate_id], which uses the unimported [uuid]
    (NameError); so no copy is ever inserted. *)
Theorem duplicate_selected_always_raises (st : TM) (row : nat) (l : loc) (n : HNode)
    (Hl : heap st !! l = Some n) :
  exists e, duplicate_selected st (Some (row, l)) = Py.Err e.
Proof.
  unfold duplicate_selected.
  rewrite Hl.
  destruct (read_node (S (size (heap st))) (heap st) l) as [src|];
    destruct (parent st (Some (row, l))) as [[r p]|]; try (eexists; reflexivity).
  destruct (clone_node_raises src (fun lb => unique_label st lb (PNode p))) as [e He].
  exists e; cbn [mbind Py.result_bind Py.bind]; rewrite He; reflexivity.
Qed.

Lemma duplicate_selected_always_raises_witness :
  heap st_grp !! 2 = Some (HGroup "h" "H" [])
  /\ exists e, duplicate_selected st_grp (Some (0, 2)) = Py.Err e.
Proof.
  split; [reflexivity | apply (duplicate_selected_always_raises st_grp 0 2 (HGroup "h" "H" [])); reflexivity].
Defined.

End TreeDuplicate.

(* ------------------------------------------------------------------ *)
(** ** Validator: commands, duplicate labels, summary *)

Section ValidatorExtra.
Import Validator.

Lemma in_dangerous_warnings (c : string -> bool) (x : string) (ds : list string) :
  In x (concat (map (fun d => if c d
         then ["Warning: Command contains potentially dangerous operation: " +:+ d]
         else []) ds)) ->
  exists d, In d ds /\ c d = true
            /\ x = "Warning: Command contains potentially dangerous operation: " +:+ d.
Proof.
  induction ds as [|d ds IH]; simpl; [tauto|].
  intros Hin; apply in_app_or in Hin as [Hin|Hin].
  - destruct (c d) eqn:Hc; simpl in Hin; [|tauto].
    destruct Hin as [<-|[]]; exists d; auto.
  - destruct (IH Hin) as (d' & ? & ? & ?); exists d'; auto.
Qed.

(** [validate_item_command] never returns the [&&] warning: its
    condition asks for [&&] in the command and for none of [;], [|],
    [&&], [||], which contradicts itself. *)
Theorem validate_item_command_no_and_warning (cmd : string) :
  ~ In "Command uses && but may need proper shell syntax" (validate_item_command cmd).
Proof.
  unfold validate_item_command.
  destruct (blank cmd); [simpl; intros [H|[]]; discriminate|].
  assert (Hand : Py.contains "&&" (Py.strip cmd)
     && negb (existsb (fun op => Py.contains op (Py.strip cmd)) [";"; "|"; "&&"; "||"]) = false).
  { destruct (Py.contains "&&" (Py.strip cmd)) eqn:Hc; [|reflexivity].
    simpl; rewrite Hc; repeat rewrite orb_true_r; reflexivity. }
  rewrite Hand; cbv beta iota.
  intros Hin. apply in_app_or in Hin as [Hin|Hin].
  - destruct (_ || _); simpl in Hin; [destruct Hin as [Hin|[]]; discriminate | exact Hin].
  - apply in_dangerous_warnings in Hin as (d & _ & _ & Hd).
    simpl in Hd; discriminate.
Qed.



Lemma existsb_eqb_false (x : string) (l : list string) :
  existsb (String.eqb x) l = false <-> ~ In x l.
Proof.
  split.
  - intros H Hin. assert (existsb (String.eqb x) l = true)
      by (apply existsb_exists; exists x; split; [exact Hin | apply String.eqb_refl]).
    congruence.
  - intros Hn. destruct (existsb (String.eqb x) l) eqn:He; [|reflexivity].
    apply existsb_exists in He as (y & Hy & Hxy). apply String.eqb_eq in Hxy; subst. tauto.
Qed.

Lemma check_dup_from_nil (seen : list string) (i : nat) (l : list Node) (path : string) :
  check_dup_from seen i l path = [] <->
  NoDup (omap node_label l) /\ Forall (fun x => ~ In x seen) (omap node_label l).
Proof.
  revert seen i; induction l as [|n l IH]; intros seen i; simpl.
  - split; [intros _; split; constructor | reflexivity].
  - destruct n as [id lbl c t f e | id lbl ch | id]; simpl; [| | apply IH].
    all: rewrite app_nil, IH; split.
    all: try (intros [Hif [Hnd Hf]];
              destruct (existsb (String.eqb lbl) seen) eqn:He; [discriminate|];
              apply existsb_eqb_false in He;
              split; [constructor; [|exact Hnd] | constructor; [exact He|]];
              [intros Hin; eapply Forall_forall in Hf; [apply Hf; left; reflexivity|exact Hin]
              |eapply Forall_impl; [exact Hf|]; simpl; tauto]).
    all: intros [Hnd Hf]; inversion Hnd as [|? ? Hnin Hnd']; subst;
         inversion Hf as [|? ? Hns Hf']; subst.
    all: split; [apply existsb_eqb_false in Hns; rewrite Hns; reflexivity|].
    all: split; [exact Hnd'|].
    all: apply Forall_forall; intros x Hx [<-|Hs]; [exact (Hnin Hx)|].
    all: eapply Forall_forall in Hf'; [exact (Hf' Hs)|exact Hx].
Qed.

(** [_check_duplicate_labels] reports nothing exactly when the labels
    of the Items and Groups of the list are pairwise distinct. *)
Theorem check_duplicate_labels_nil (l : list Node) (path : string) :
  check_duplicate_labels l path = [] <-> NoDup (omap node_label l).
Proof.
  unfold check_duplicate_labels; rewrite check_dup_from_nil.
  split; [tauto|]. intros H; split; [exact H|].
  apply Forall_forall; intros x _ [].
Qed.
Ltac typed := repeat first [ apply List.Forall_nil | apply List.Forall_cons; [reflexivity|] ].

Lemma validate_item_typed label cmd env path :
  Forall emit_typed (validate_item label cmd env path).
Proof.
  unfold validate_item.
  apply Forall_app_2; [destruct (blank _); typed|].
  apply Forall_app_2; [destruct (blank _); typed|].
  induction env as [|kv env IH]; simpl; [constructor|].
  apply Forall_app_2; [destruct (blank _); typed | exact IH].
Qed.

Lemma check_dup_from_typed seen i l path : Forall emit_typed (check_dup_from seen i l path).
Proof.
  revert seen i; induction l as [|n l IH]; intros seen i; simpl; [constructor|].
  destruct n; try apply IH.
  all: apply Forall_app_2; [destruct (existsb _ _); typed | apply IH].
Qed.

Lemma validate_node_typed n : forall path, Forall emit_typed (validate_node n path).
Proof.
  induction n as [i l c t f e | i l ch Hch | i] using Node_deep_ind; intros path; simpl.
  - apply validate_item_typed.
  - apply Forall_app_2; [destruct (blank l); typed|].
    destruct ch as [|c0 ch0]; [typed|].
    apply Forall_app_2; [|apply check_dup_from_typed].
    assert (Hgo : forall xs k,
      Forall (fun n => forall p, Forall emit_typed (validate_node n p)) xs ->
      Forall emit_typed ((fix go (i : nat) (l : list Node) : list Emit :=
                            match l with
                            | [] => []
                            | c :: r =>
                                validate_node c (path +:+ ".items[" +:+ Py.str_of_nat i +:+ "]")
                                ++ go (S i) r
                            end) k xs)).
    { intros xs k Hxs; revert k; induction Hxs as [|x xs Hx Hxs IH]; intros k; [typed|].
      apply Forall_app_2; [apply Hx | apply IH]. }
    exact (Hgo (c0 :: ch0) 0 Hch).
  - constructor.
Qed.

Lemma sep_walk_typed (rec : Node -> string -> list Emit) (l : list Node) (path : string) :
  (forall n, In n l -> forall loc, Forall emit_typed (rec n loc)) ->
  Forall emit_typed (sep_walk rec l path).
Proof.
  intros Hrec. unfold sep_walk.
  assert (Hgo : forall len xs k, (forall n, In n xs -> forall loc, Forall emit_typed (rec n loc)) ->
    Forall emit_typed
     ((fix go (i : nat) (xs : list Node) {struct xs} : list Emit :=
       match xs with
       | [] => []
       | n :: r =>
           let loc := path +:+ "[" +:+ Py.str_of_nat i +:+ "]" in
           match n with
           | SeparatorNode _ =>
               (if Nat.eqb i 0
                then [warn loc "Separator at beginning has no visual effect" "type"] else [])
               ++ (if Nat.eqb i (len - 1)
                   then [warn loc "Separator at end has no visual effect" "type"] else [])
               ++ (match r with
                   | SeparatorNode _ :: _ =>
                       [warn loc "Back-to-back separators have no visual effect" "type"]
                   | _ => []
                   end)
           | GroupNode _ _ _ => rec n loc
           | ItemNode _ _ _ _ _ _ => []
           end ++ go (S i) r
       end) k xs)).
  { intros len xs; induction xs as [|n xs IH]; intros k Hr; [typed|].
    apply Forall_app_2.
    - destruct n.
      + typed.
      + apply Hr; left; reflexivity.
      + apply Forall_app_2; [|apply Forall_app_2];
          [destruct (Nat.eqb _ _); typed
          |destruct (Nat.eqb _ _); typed
          |destruct xs as [|[] ?]; typed].
    - apply IH. intros m Hm; apply Hr; right; exact Hm. }
  exact (Hgo (length l) l 0 Hrec).
Qed.

Lemma sep_node_typed n : forall loc, Forall emit_typed (sep_node n loc).
Proof.
  induction n as [i l c t f e | i l ch Hch | i] using Node_deep_ind; intros loc; simpl;
    [constructor | | constructor].
  apply sep_walk_typed. intros m Hm; eapply List.Forall_forall in Hch; [exact Hch | exact Hm].
Qed.

Lemma validate_emissions_typed c : Forall emit_typed (validate_emissions c).
Proof.
  unfold validate_emissions. destruct (items c) as [|n l]; [typed|].
  apply Forall_app_2; [|apply Forall_app_2].
  - apply Forall_concat, List.Forall_forall. intros xs Hxs.
    apply list_elem_of_In, elem_of_lookup_imap in Hxs as (i & m & -> & _).
    apply validate_node_typed.
  - apply check_dup_from_typed.
  - apply sep_walk_typed; intros; apply sep_node_typed.
Qed.

Lemma run_emits_typed xs st :
  Forall emit_typed xs ->
  Forall (fun e => type e = "error") (errors st) ->
  Forall (fun e => type e = "warning") (warnings st) ->
  Forall (fun e => type e = "error") (errors (run_emits xs st))
  /\ Forall (fun e => type e = "warning") (warnings (run_emits xs st)).
Proof.
  revert st; induction xs as [|x xs IH]; intros st Hx He Hw; simpl; [tauto|].
  inversion Hx as [|? ? Hx0 Hxs]; subst.
  apply IH; [exact Hxs| |]; destruct x; simpl in *; try assumption.
  all: apply Forall_app_2; [assumption | apply List.Forall_cons; [exact Hx0 | apply List.Forall_nil]].
Qed.

(** In [get_validation_summary], errors and warnings add up to the
    list returned, and the configuration is valid exactly when every
    entry of that list is a warning. *)
Theorem get_validation_summary_counts (c : Config) :
  let s := get_validation_summary c in
  total_errors s + total_warnings s = length (summary_errors s)
  /\ (is_valid s = true <-> Forall (fun e => type e = "warning") (summary_errors s)).
Proof.
  unfold get_validation_summary, validate_config; simpl.
  destruct (run_emits_typed (validate_emissions c) (mkVState [] [])
              (validate_emissions_typed c) (List.Forall_nil _) (List.Forall_nil _)) as [He Hw].
  set (E := errors _) in *; set (W := warnings _) in *.
  assert (HfE : List.filter (fun e => String.eqb (type e) "error") E = E).
  { apply forallb_filter_id, forallb_forall. intros x Hx.
    eapply List.Forall_forall in He; [|exact Hx]. rewrite He; reflexivity. }
  assert (HfW : List.filter (fun e => String.eqb (type e) "error") W = []).
  { clear HfE. induction W as [|w W IH]; simpl; [reflexivity|].
    inversion Hw as [|? ? Hw0 Hws]; subst. rewrite Hw0; simpl. exact (IH Hws). }
  assert (HgE : List.filter (fun e => String.eqb (type e) "warning") E = []).
  { clear HfE HfW. induction E as [|x E IH]; simpl; [reflexivity|].
    inversion He as [|? ? He0 Hes]; subst. rewrite He0; simpl. exact (IH Hes). }
  assert (HgW : List.filter (fun e => String.eqb (type e) "warning") W = W).
  { apply forallb_filter_id, forallb_forall. intros x Hx.
    eapply List.Forall_forall in Hw; [|exact Hx]. rewrite Hw; reflexivity. }
  rewrite !List.filter_app, HfE, HfW, HgE, HgW, app_nil_r, app_nil_l, length_app.
  split; [reflexivity|].
  split.
  - intros H. apply Nat.eqb_eq, length_zero_iff_nil in H. rewrite H. exact Hw.
  - intros H. apply Forall_app in H as [H1 _].
    destruct E as [|x E]; [reflexivity|].
    inversion He; inversion H1; subst. congruence.
Qed.

End ValidatorExtra.

(* ------------------------------------------------------------------ *)
(** ** Save coordinator: windows and paths *)

Section CoordExtra.
Import Coord.

(** [should_ignore_change] gives the same answer and the same table
    whatever the current stat of the file: both branches of its stat
    comparison return [True]. *)
Theorem should_ignore_change_ignores_stat (saves : Saves) (path : string) (now : Z)
    (cur1 cur2 : option Stat) :
  should_ignore_change saves path now cur1 = should_ignore_change saves path now cur2.
Proof.
  unfold should_ignore_change.
  destruct (saves !! path) as [w|]; [|reflexivity].
  destruct (until w <? now)%Z; [reflexivity|].
  destruct (inode w); [|reflexivity].
  destruct cur1 as [s1|]; destruct cur2 as [s2|]; try destruct (_ && _); try destruct (_ && _); reflexivity.
Qed.

(** After [begin_save] at [t0] and [end_save] at [t1], a change at [t]
    is ignored until [t1 + 1500] when [end_save] could stat the file, and
    until the [begin_save] deadline [t0 + w] when it could not. *)
Theorem save_window_deadline (saves : Saves) (path : string) (t0 w t1 t : Z)
    (st : option Stat) (cur : option Stat) :
  fst (should_ignore_change (end_save (begin_save saves path t0 w) path t1 st) path t cur)
  = match st with
    | Some _ => (t <=? t1 + 1500)%Z
    | None => (t <=? t0 + w)%Z
    end.
Proof.
  unfold end_save, begin_save.
  destruct st as [s|].
  - rewrite lookup_insert_eq, insert_insert_eq. unfold should_ignore_change.
    rewrite lookup_insert_eq; simpl.
    destruct (Z.ltb_spec (t1 + 1500) t); destruct (Z.leb_spec t (t1 + 1500)); try lia;
      simpl; [reflexivity|].
    destruct cur as [c|]; [destruct (_ && _)|]; reflexivity.
  - unfold should_ignore_change. rewrite lookup_insert_eq; simpl.
    destruct (Z.ltb_spec (t0 + w) t); destruct (Z.leb_spec t (t0 + w)); try lia; reflexivity.
Qed.

(** [end_save] for a path without a pending save changes nothing, and
    a change of that path is then not ignored. *)
Theorem end_save_without_begin (saves : Saves) (path : string) (now t : Z)
    (st cur : option Stat) (Hnone : saves !! path = None) :
  end_save saves path now st = saves
  /\ should_ignore_change (end_save saves path now st) path t cur = (false, saves).
Proof.
  assert (He : end_save saves path now st = saves)
    by (unfold end_save; destruct st; [rewrite Hnone|]; reflexivity).
  split; [exact He|]. rewrite He. unfold should_ignore_change; rewrite Hnone; reflexivity.
Qed.

(** A pending save of one path does not affect the checks of another
    path: the check runs as without it and the pending save stays. *)
Theorem begin_save_other_path (saves : Saves) (p q : string) (t0 w now : Z)
    (cur : option Stat) (Hpq : p <> q) :
  should_ignore_change (begin_save saves p t0 w) q now cur
  = let '(b, s) := should_ignore_change saves q now cur in (b, begin_save s p t0 w).
Proof.
  unfold should_ignore_change, begin_save.
  rewrite lookup_insert_ne by (intros E; apply Hpq; congruence).
  destruct (saves !! q) as [x|]; [|reflexivity].
  destruct (until x <? now)%Z.
  - rewrite delete_insert_ne by (intros E; apply Hpq; congruence). reflexivity.
  - destruct (inode x); [|reflexivity].
    destruct cur; [destruct (_ && _)|]; reflexivity.
Qed.
Lemma end_save_without_begin_witness :
  (∅ : Saves) !! "/c.yaml" = None
  /\ end_save ∅ "/c.yaml" 10 (Some (mkStat 1 2 3)) = ∅
  /\ should_ignore_change (end_save ∅ "/c.yaml" 10 (Some (mkStat 1 2 3))) "/c.yaml" 11 None
     = (false, ∅).
Proof.
  assert (H : (∅ : Saves) !! "/c.yaml" = None) by reflexivity.
  split; [exact H|].
  exact (end_save_without_begin ∅ "/c.yaml" 10 11 (Some (mkStat 1 2 3)) None H).
Defined.

Lemma begin_save_other_path_witness :
  "/a.yaml" <> "/b.yaml"
  /\ should_ignore_change (begin_save (begin_save ∅ "/b.yaml" 0 100) "/a.yaml" 400 2000)
       "/b.yaml" 500 None
     = let '(b, s) := should_ignore_change (begin_save ∅ "/b.yaml" 0 100) "/b.yaml" 500 None in
       (b, begin_save s "/a.yaml" 400 2000).
Proof.
  assert (H : "/a.yaml" <> "/b.yaml") by discriminate.
  split; [exact H|].
  exact (begin_save_other_path (begin_save ∅ "/b.yaml" 0 100) "/a.yaml" "/b.yaml" 400 2000 500
           None H).
Defined.

End CoordExtra.

(* ------------------------------------------------------------------ *)
(** ** File watcher: debounce, polling, pause *)

Section FileWatchExtra.
Import FileWatch.

Lemma run_handler_gaps (p : string) (evs : list (FSEvent * Z)) :
  forall lm : gmap string Z,
  gaps_ok (option_list (lm !! p)
           ++ map snd (List.filter (fun d => String.eqb (fst d) p) (run_handler lm evs))).
Proof.
  induction evs as [|[ev t] evs IH]; intros lm; simpl.
  - rewrite app_nil_r. destruct (lm !! p); simpl; exact I.
  - unfold on_modified.
    destruct (is_directory ev); [apply IH|].
    destruct (negb (_ || _)); [apply IH|].
    destruct (lm !! src_path ev) as [t0|] eqn:Hl.
    + destruct (Z.ltb_spec (t - t0) 1000) as [Hlt|Hge]; [apply IH|].
      simpl. destruct (String.eqb_spec (src_path ev) p) as [Heq|Hne].
      * subst p. rewrite Hl. simpl.
        specialize (IH (<[src_path ev := t]> lm)). rewrite lookup_insert_eq in IH.
        simpl in IH. split; [lia | exact IH].
      * specialize (IH (<[src_path ev := t]> lm)). rewrite lookup_insert_ne in IH by exact Hne.
        exact IH.
    + simpl. destruct (String.eqb_spec (src_path ev) p) as [Heq|Hne].
      * subst p. rewrite Hl. simpl.
        specialize (IH (<[src_path ev := t]> lm)). rewrite lookup_insert_eq in IH. exact IH.
      * specialize (IH (<[src_path ev := t]> lm)). rewrite lookup_insert_ne in IH by exact Hne.
        exact IH.
Qed.

Lemma run_handler_yaml (evs : list (FSEvent * Z)) :
  forall lm : gmap string Z, Forall (fun d => yaml_name (fst d) = true) (run_handler lm evs).
Proof.
  induction evs as [|[ev t] evs IH]; intros lm; simpl; [constructor|].
  unfold on_modified.
  destruct (is_directory ev); [apply IH|].
  destruct (yaml_name (src_path ev)) eqn:Hy; unfold yaml_name in Hy; rewrite Hy; simpl; [|apply IH].
  destruct (match lm !! src_path ev with Some t0 => _ | None => false end); [apply IH|].
  constructor; [exact Hy | apply IH].
Qed.

(** [ConfigFileHandler.on_modified], run from an empty table, only
    passes on [.yaml]/[.yml] paths, and the mtimes it passes on for one
    path are at least 1000 ms apart. *)
Theorem on_modified_debounce (evs : list (FSEvent * Z)) :
  let out := run_handler ∅ evs in
  Forall (fun d => yaml_name (fst d) = true) out
  /\ forall p, gaps_ok (map snd (List.filter (fun d => String.eqb (fst d) p) out)).
Proof.
  split; [apply run_handler_yaml|].
  intros p. exact (run_handler_gaps p evs ∅).
Qed.

Lemma run_polls_increases (curs : list (option Z)) :
  forall last, run_polls last curs = increases (option_list last ++ omap id curs).
Proof.
  induction curs as [|c curs IH]; intros last; simpl.
  - destruct last; reflexivity.
  - destruct c as [t|]; simpl.
    + rewrite IH. destruct last as [t0|]; reflexivity.
    + apply IH.
Qed.

(** Polling with [_check_file_changes] emits [file_changed] once per
    strict increase between consecutive mtimes of the existing file:
    never on the first poll, never for a missing file, never when the
    mtime stays or goes back. *)
Theorem check_file_changes_counts (curs : list (option Z)) :
  run_polls None curs = increases (omap id curs).
Proof. exact (run_polls_increases curs None). Qed.

Lemma apply_ops_app (p : nat) (xs ys : list wop) :
  apply_ops p (xs ++ ys) = apply_ops (apply_ops p xs) ys.
Proof. unfold apply_ops; apply fold_left_app. Qed.

Lemma apply_ops_pauses (p k : nat) : apply_ops p (repeat Pause k) = p + k.
Proof. revert p; induction k as [|k IH]; intros p; simpl; [lia|]. rewrite IH; lia. Qed.

Lemma apply_ops_resumes (p j : nat) : apply_ops p (repeat Resume j) = p - j.
Proof. revert p; induction j as [|j IH]; intros p; simpl; [lia|]. rewrite IH; lia. Qed.

(** After [k] [pause()] and then [j] [resume()], a change is dropped
    without consulting the save coordinator when [j < k]; when [k <= j]
    it goes through the coordinator; [resume()] calls made while nothing
    is paused are lost, so a later [pause()] still drops changes. *)
Theorem pause_resume_nesting (k j : nat) (saves : Coord.Saves) (p : string) (now : Z)
    (cur : option Coord.Stat) :
  let paused := apply_ops 0 (repeat Pause k ++ repeat Resume j) in
  (j < k -> on_file_changed paused saves p now cur = (false, saves))
  /\ (k <= j -> on_file_changed paused saves p now cur
                = let '(ign, s) := Coord.should_ignore_change saves p now cur in (negb ign, s))
  /\ on_file_changed (apply_ops 0 (repeat Resume j ++ [Pause])) saves p now cur = (false, saves).
Proof.
  simpl. rewrite !apply_ops_app, apply_ops_pauses, apply_ops_resumes. simpl.
  split; [|split].
  - intros H. unfold on_file_changed. destruct (Nat.eqb_spec (k - j) 0); [lia|]. reflexivity.
  - intros H. unfold on_file_changed. destruct (Nat.eqb_spec (k - j) 0); [|lia]. reflexivity.
  - reflexivity.
Qed.
Lemma pause_resume_nesting_witness :
  on_file_changed (apply_ops 0 (repeat Pause 2 ++ repeat Resume 1)) ∅ "/c.yaml" 0 None
  = (false, ∅).
Proof.
  pose proof (pause_resume_nesting 2 1 ∅ "/c.yaml" 0 None) as Hp. cbv zeta in Hp.
  destruct Hp as [H _]. apply H. lia.
Defined.

End FileWatchExtra.

(* ------------------------------------------------------------------ *)
(** ** Reload client: the CLI message *)

Section ReloadExtra.
Import Reload.




End ReloadExtra.

(* ------------------------------------------------------------------ *)
(** ** Tree panel: keyboard moves, deletion, drag and drop *)

Section TreeExtra.
Import Tree.

(** Alt+Up and Alt+Down never change the tree: they return early, or
    [_move_node_to_position] raises [AttributeError] on the missing
    [_get_drag_range]. *)
Theorem move_selected_never_moves (st : TM) (index : QIndex) :
  let e := Py.Err (Py.AttributeError "'ConfigTreeModel' object has no attribute '_get_drag_range'") in
  (move_selected_up st index = Py.Ok st \/ move_selected_up st index = e)
  /\ (move_selected_down st index = Py.Ok st \/ move_selected_down st index = e).
Proof.
  split.
  - unfold move_selected_up. destruct index as [[row l]|]; [|left; reflexivity].
    destruct (Nat.eqb row 0); [left|right]; reflexivity.
  - unfold move_selected_down. destruct index as [[row l]|]; [|left; reflexivity].
    destruct (_ <=? _)%Z; [left|right]; reflexivity.
Qed.

(** [delete_selected] of a node whose parent is at the top level (or
    of a top-level node) deletes [root_items[row]], whatever node that
    is, and leaves every Group's children as they were. *)
Theorem delete_selected_removes_root_row (st : TM) (row : nat) (l : loc) (n : HNode)
    (Hl : heap st !! l = Some n)
    (Hpp : parent st (parent st (Some (row, l))) = None)
    (Hrow : row < length (root_items st)) :
  delete_selected st (Some (row, l)) true = mkTM (del_index (root_items st) row) (heap st).
Proof.
  unfold delete_selected. rewrite Hl. cbv beta iota.
  assert (Hid : get_parent_id st (parent st (Some (row, l))) = "ROOT").
  { unfold get_parent_id. destruct (parent st (Some (row, l))) as [p|]; [|reflexivity].
    rewrite Hpp; reflexivity. }
  rewrite Hid. unfold get_children_list. simpl.
  destruct (Nat.ltb_spec row (length (root_items st))); [reflexivity|lia].
Qed.

Lemma list_insert_perm {A} (L : list A) (k : Z) (x : A) : Py.list_insert L k x ≡ₚ x :: L.
Proof.
  unfold Py.list_insert. rewrite <- Permutation_middle.
  rewrite take_drop. reflexivity.
Qed.

Lemma insert_block_perm (block : list loc) :
  forall (st : TM) (h : handle) (r i : Z),
  valid_handle st h ->
  get_list (insert_block st h r i block) h ≡ₚ block ++ get_list st h.
Proof.
  induction block as [|x block IH]; intros st h r i Hv; simpl; [reflexivity|].
  rewrite IH by (apply set_list_valid, Hv).
  rewrite get_set_list by exact Hv. rewrite list_insert_perm.
  symmetry; apply Permutation_middle.
Qed.

Lemma slice_idx_nonneg (n i : Z) : (0 <= n)%Z -> (0 <= Py.slice_idx n i)%Z.
Proof. unfold Py.slice_idx; destruct (i <? 0)%Z eqn:E; [lia|]. apply Z.ltb_ge in E; lia. Qed.

Lemma del_slice_slice_perm {A} (l : list A) (s e : Z) :
  Py.del_slice l s e ++ Py.slice l s e ≡ₚ l.
Proof.
  unfold Py.del_slice, Py.slice.
  set (a' := Py.slice_idx _ s). set (b' := Py.slice_idx _ e).
  assert (Ha : (0 <= a')%Z) by (apply slice_idx_nonneg; lia).
  assert (Hm : Z.to_nat (Z.max a' b') = Z.to_nat a' + Z.to_nat (b' - a')) by lia.
  rewrite Hm, <- drop_drop, <- app_assoc.
  rewrite (Permutation_app_comm (drop _ (drop _ l))), take_drop, take_drop. reflexivity.
Qed.

Lemma get_set_list_other (st : TM) (h h' : handle) (l : list loc) :
  valid_handle st h' -> h <> h' -> get_list (set_list st h l) h' = get_list st h'.
Proof.
  intros Hv' Hne. destruct h as [|g|]; simpl; [| |reflexivity].
  - destruct h' as [|g'|]; [congruence|reflexivity|reflexivity].
  - destruct (heap st !! g) as [[| i lb ch |]|]; try reflexivity.
    destruct h' as [|g'|]; simpl; [reflexivity| |reflexivity].
    rewrite lookup_insert_ne by congruence. reflexivity.
Qed.

Lemma set_list_valid_other (st : TM) (h h' : handle) (l : list loc) :
  valid_handle st h' -> valid_handle (set_list st h l) h'.
Proof.
  intros Hv'. destruct h as [|g|]; simpl; [| |exact Hv'].
  - destruct h'; exact Hv'.
  - destruct (heap st !! g) as [[| i lb ch |]|] eqn:Hg; try exact Hv'.
    destruct h' as [|g'|]; simpl; [exact I| |exact Hv'].
    destruct Hv' as (i' & lb' & ch' & Hg').
    destruct (decide (g = g')) as [->|Hne].
    + rewrite lookup_insert_eq; eauto.
    + rewrite lookup_insert_ne by exact Hne; eauto.
Qed.

Lemma insert_block_other (block : list loc) :
  forall (st : TM) (h h' : handle) (r i : Z),
  valid_handle st h' -> h <> h' ->
  get_list (insert_block st h r i block) h' = get_list st h'.
Proof.
  induction block as [|x block IH]; intros st h h' r i Hv' Hne; simpl; [reflexivity|].
  rewrite IH by (try apply set_list_valid_other; assumption).
  apply get_set_list_other; assumption.
Qed.

(** A move by [dropMimeData] only rearranges nodes: within one list the
    list is a permutation of the old one; between two lists their
    concatenation is. *)
Theorem dropMimeData_permutes (st st' : TM) (pl : Payload) (row : Z) (P : QIndex)
    (Hd : dropMimeData st (Some pl) MoveAction row P = (true, st'))
    (Hvs : valid_handle st (get_children_list st (src_parent pl)))
    (Hvd : valid_handle st (get_children_list st (get_parent_id st P))) :
  let hs := get_children_list st (src_parent pl) in
  let hd := get_children_list st (get_parent_id st P) in
  (hs = hd -> get_list st' hs ≡ₚ get_list st hs)
  /\ (hs <> hd -> get_list st' hs ++ get_list st' hd ≡ₚ get_list st hs ++ get_list st hd).
Proof.
  unfold dropMimeData in Hd. cbv zeta in Hd |- *.
  set (hs := get_children_list st (src_parent pl)) in *.
  set (hd := get_children_list st (get_parent_id st P)) in *.
  set (blk := Py.slice (get_list st hs) (start pl) (end_ pl)) in *.
  destruct (existsb _ blk); [discriminate|].
  injection Hd as Hst. subst st'.
  set (st1 := set_list st hs (Py.del_slice (get_list st hs) (start pl) (end_ pl))).
  split.
  - intros Heq. rewrite <- Heq in *.
    rewrite insert_block_perm by (apply set_list_valid, Hvs).
    unfold st1. rewrite get_set_list by exact Hvs.
    rewrite Permutation_app_comm. apply del_slice_slice_perm.
  - intros Hne.
    rewrite insert_block_other by first [apply set_list_valid; assumption | congruence].
    rewrite insert_block_perm by (apply set_list_valid_other, Hvd).
    unfold st1. rewrite get_set_list by exact Hvs.
    rewrite get_set_list_other by (first [assumption | congruence]).
    rewrite app_assoc. apply Permutation_app_tail.
    apply del_slice_slice_perm.
Qed.
Lemma delete_selected_removes_root_row_witness :
  heap st_grp !! 2 = Some (HGroup "h" "H" [])
  /\ parent st_grp (parent st_grp (Some (0, 2))) = None
  /\ delete_selected st_grp (Some (0, 2)) true = mkTM [3] (heap st_grp).
Proof.
  assert (H1 : heap st_grp !! 2 = Some (HGroup "h" "H" [])) by (vm_compute; reflexivity).
  assert (H2 : parent st_grp (parent st_grp (Some (0, 2))) = None) by (vm_compute; reflexivity).
  assert (H3 : 0 < length (root_items st_grp)) by (simpl; lia).
  split; [exact H1|]. split; [exact H2|].
  exact (delete_selected_removes_root_row st_grp 0 2 (HGroup "h" "H" []) H1 H2 H3).
Defined.

Lemma dropMimeData_permutes_witness :
  let st' := snd (dropMimeData st_grp (Some (mkPayload "ROOT" 1 2)) MoveAction 0 (Some (0, 2))) in
  root_items st' = [1] /\ get_list st' (HItems 1) = [3; 2]
  /\ get_list st' (get_children_list st_grp "ROOT")
     ++ get_list st' (get_children_list st_grp (get_parent_id st_grp (Some (0, 2))))
     ≡ₚ get_list st_grp (get_children_list st_grp "ROOT")
        ++ get_list st_grp (get_children_list st_grp (get_parent_id st_grp (Some (0, 2)))).
Proof.
  intros st'.
  assert (Hd : dropMimeData st_grp (Some (mkPayload "ROOT" 1 2)) MoveAction 0 (Some (0, 2))
               = (true, st')) by (vm_compute; reflexivity).
  assert (Hvs : valid_handle st_grp (get_children_list st_grp (src_parent (mkPayload "ROOT" 1 2))))
    by (vm_compute; exact I).
  assert (Hvd : valid_handle st_grp (get_children_list st_grp (get_parent_id st_grp (Some (0, 2)))))
    by (vm_compute; do 3 eexists; reflexivity).
  pose proof (dropMimeData_permutes st_grp st' (mkPayload "ROOT" 1 2) 0 (Some (0, 2)) Hd Hvs Hvd)
    as Hp.
  cbv zeta in Hp. destruct Hp as [_ H].
  split; [vm_compute; reflexivity|]. split; [vm_compute; reflexivity|].
  apply H. vm_compute. intros E; discriminate E.
Defined.

End TreeExtra.

(* ------------------------------------------------------------------ *)
(** ** YAML persistence: ids and the save/load round trip *)

Section PersistExtra.
Import Persist.















(** [_remove_ids_recursive] leaves no key ['id'] in any mapping at any
    depth, and applying it twice is applying it once. *)
Theorem remove_ids_no_id_keys (v : yval) :
  no_id_keys (remove_ids v) = true /\ remove_ids (remove_ids v) = remove_ids v.
Proof.
  induction v as [| s | b | l IH | kvs IH] using yval_deep_ind; try (split; reflexivity).
  - simpl. rewrite map_map. split.
    + induction IH as [|x l [Hx _] _ IHl]; simpl; [reflexivity|]. rewrite Hx; exact IHl.
    + f_equal. induction IH as [|x l [_ Hx] _ IHl]; simpl; [reflexivity|].
      rewrite Hx, IHl. reflexivity.
  - simpl. split.
    + induction IH as [|[k x] kvs Hx _ IHl]; simpl; [reflexivity|].
      destruct (String.eqb_spec k "id"); [exact IHl|]. simpl.
      destruct (String.eqb_spec k "id"); [contradiction|]. simpl.
      simpl in Hx. rewrite (proj1 Hx). exact IHl.
    + f_equal. induction IH as [|[k x] kvs Hx _ IHl]; simpl; [reflexivity|].
      destruct (String.eqb_spec k "id"); [exact IHl|]. simpl.
      destruct (String.eqb_spec k "id"); [contradiction|].
      simpl in Hx. rewrite (proj2 Hx), IHl. reflexivity.
Qed.

End PersistExtra.

(* ------------------------------------------------------------------ *)
(** ** Main window: outcomes of Save and Save As *)

Section MainWindowExtra.
Import Persist MainWindow.

Lemma save_yaml_write_failure (fs : FS) (p : Path) (c : Config) (orig : option yval)
    (ts : string) (d : fdata) (Hex : fs !! key p = Some d) :
  save_yaml fs p c orig ts false
  = (Py.Err (Py.ValueError "Failed to save YAML"),
     <[key p := d]> (<[key (with_suffix p (".yaml.bak-" +:+ ts)) := d]> fs)).
Proof.
  unfold save_yaml, create_backup. rewrite Hex. cbv zeta.
  rewrite lookup_insert_eq.
  destruct (match orig with Some o => _ | None => _ end); reflexivity.
Qed.

(** [save_config] when writing fails: the window keeps its state
    (still unsaved), the file keeps its contents, and the backup holds
    them. *)
Theorem save_config_write_failure (fs : FS) (mw : MW) (p : Path) (dialog : option Path)
    (ts : string) (seed : nat) (d : fdata)
    (Hp : config_path mw = Some p) (Hex : fs !! key p = Some d) :
  let '(mw', fs') := save_config fs mw dialog ts false seed in
  mw' = mw /\ fs' !! key p = Some d
  /\ fs' !! key (with_suffix p (".yaml.bak-" +:+ ts)) = Some d.
Proof.
  unfold save_config. rewrite Hp. unfold save_to.
  rewrite (save_yaml_write_failure fs p (config mw) (original_yaml mw) ts d Hex).
  split; [reflexivity|]. split; [apply lookup_insert_eq|].
  destruct (decide (key (with_suffix p (".yaml.bak-" +:+ ts)) = key p)) as [E|E].
  - rewrite E, lookup_insert_eq. reflexivity.
  - rewrite lookup_insert_ne by congruence. apply lookup_insert_eq.
Qed.


(** Save As to a file that does not exist: the window takes the new
    path but writes nothing and stays unsaved, and every later Save to
    that path fails the same way. *)
Theorem save_as_new_file_stays_unsaved (fs : FS) (mw : MW) (p : Path) (ts ts' : string)
    (write_ok write_ok' : bool) (seed seed' : nat)
    (Hnone : config_path mw = None) (Hnew : fs !! key p = None) :
  let mw1 := mkMW (config mw) (Some p) (original_yaml mw) (has_unsaved_changes mw) in
  save_config fs mw (Some p) ts write_ok seed = (mw1, fs)
  /\ save_config fs mw1 None ts' write_ok' seed' = (mw1, fs).
Proof.
  assert (Hs : forall m o t w, save_yaml fs p m o t w
            = (Py.Err (Py.FileNotFoundError "Cannot backup non-existent file"), fs)).
  { intros m o t w. unfold save_yaml, create_backup. rewrite Hnew. reflexivity. }
  split.
  - unfold save_config. rewrite Hnone. unfold save_to. simpl. rewrite Hs. reflexivity.
  - unfold save_config, save_to. simpl. rewrite Hs. reflexivity.
Qed.
Definition mw_saved : MW := mkMW test_config (Some cfg_path) None true.

Lemma save_config_write_failure_witness :
  let '(mw', fs') := save_config (<[key cfg_path := Doc YNull]> ∅) mw_saved None
                       "20260101-120000" false 0 in
  mw' = mw_saved /\ fs' !! key cfg_path = Some (Doc YNull)
  /\ fs' !! key (with_suffix cfg_path (".yaml.bak-" +:+ "20260101-120000")) = Some (Doc YNull).
Proof.
  apply (save_config_write_failure (<[key cfg_path := Doc YNull]> ∅) mw_saved cfg_path None
           "20260101-120000" 0 (Doc YNull)); [reflexivity | apply lookup_insert_eq].
Defined.


Lemma save_as_new_file_stays_unsaved_witness :
  save_config ∅ (mkMW test_config None None true) (Some cfg_path) "20260101-120000" true 0
  = (mkMW test_config (Some cfg_path) None true, ∅)
  /\ save_config ∅ (mkMW test_config (Some cfg_path) None true) None "20260101-120001" true 1
     = (mkMW test_config (Some cfg_path) None true, ∅).
Proof.
  exact (save_as_new_file_stays_unsaved ∅ (mkMW test_config None None true) cfg_path
           "20260101-120000" "20260101-120001" true true 0 1 eq_refl eq_refl).
Defined.

End MainWindowExtra.

(* ------------------------------------------------------------------ *)
(** ** [clone_node] and [_add_copy_suffix] *)

Section CloneExtra.
Import Tree.

Lemma assign_ids_group (idf : nat -> Py.result string) i l ch k :
  assign_ids idf (GroupNode i l ch) k
  = (i' ← idf k; '(ch', k') ← assign_list idf ch (S k); Py.Ok (GroupNode i' l ch', k')).
Proof. reflexivity. Qed.

Lemma assign_ids_spec (F : nat -> string) (n : Node) : forall k,
  exists n', assign_ids (fun j => Py.Ok (F j)) n k = Py.Ok (n', k + length (node_ids n))
    /\ node_ids n' = map F (seq k (length (node_ids n)))
    /\ Persist.erase_ids n' = Persist.erase_ids n.
Proof.
  induction n as [i l c t f e | i l ch IH | i] using Node_deep_ind; intros k.
  - eexists; split; [simpl; rewrite Nat.add_1_r; reflexivity|]. split; reflexivity.
  - assert (Hl : forall k, exists ch', assign_list (fun j => Py.Ok (F j)) ch k
                 = Py.Ok (ch', k + length (concat (map node_ids ch)))
               /\ concat (map node_ids ch') = map F (seq k (length (concat (map node_ids ch))))
               /\ map Persist.erase_ids ch' = map Persist.erase_ids ch).
    { clear -IH. induction IH as [|x ch Hx _ IHch]; intros k.
      - exists []. simpl. rewrite Nat.add_0_r. auto.
      - destruct (Hx k) as (x' & Hv & Hi & He).
        destruct (IHch (k + length (node_ids x))) as (ch' & Hvl & Hich & Hech).
        exists (x' :: ch'). simpl. rewrite Hv. cbn. rewrite Hvl. cbn.
        rewrite length_app, Nat.add_assoc. split; [reflexivity|].
        rewrite Hi, Hich, seq_app, map_app, He, Hech. split; reflexivity. }
    destruct (Hl (S k)) as (ch' & Hv & Hi & He).
    rewrite assign_ids_group. cbn. rewrite Hv. cbn.
    eexists; split; [rewrite Nat.add_succ_r; reflexivity|].
    simpl. rewrite Hi, He. split; reflexivity.
  - eexists; split; [simpl; rewrite Nat.add_1_r; reflexivity|]. split; reflexivity.
Qed.

(** [clone_node] with an id factory that does not fail: the clone's
    identifiers are the factory's first results in preorder, and apart
    from identifiers and its own label the clone is the original. *)
Theorem clone_node_fresh_ids (n n' : Node) (F : nat -> string)
    (label_deduper : string -> Py.result string)
    (Hc : clone_node n (fun j => Py.Ok (F j)) label_deduper = Py.Ok n') :
  node_ids n' = map F (seq 0 (length (node_ids n)))
  /\ Persist.erase_ids (with_label n' (label_of n)) = Persist.erase_ids n.
Proof.
  destruct (assign_ids_spec F n 0) as (n0 & Hv & Hi & He).
  unfold clone_node in Hc. rewrite Hv in Hc. cbn in Hc.
  assert (Hlab : label_of n0 = label_of n).
  { destruct n0, n; simpl in He |- *; try discriminate; try reflexivity; injection He; intros; subst; reflexivity. }
  destruct n0 as [i l c t f e | i l ch | i].
  - destruct (String.eqb l "").
    + injection Hc as <-. split; [exact Hi|]. simpl in Hlab |- *. rewrite Hlab in He.
      rewrite <- He. destruct n; reflexivity.
    + destruct (add_copy_suffix l label_deduper) as [l'|]; cbn in Hc; [|discriminate].
      injection Hc as <-. split; [exact Hi|]. simpl in Hlab |- *. subst l.
      rewrite <- He. reflexivity.
  - destruct (String.eqb l "").
    + injection Hc as <-. split; [exact Hi|]. simpl in Hlab |- *. subst l.
      rewrite <- He. reflexivity.
    + destruct (add_copy_suffix l label_deduper) as [l'|]; cbn in Hc; [|discriminate].
      injection Hc as <-. split; [exact Hi|]. simpl in Hlab |- *. subst l.
      rewrite <- He. reflexivity.
  - injection Hc as <-. split; [exact Hi|]. rewrite <- He. reflexivity.
Qed.

(** [_add_copy_suffix] turns a label ending in [" (copy)"] into the
    same label ending in [" (copy 2)"] before asking the deduper. *)
Theorem add_copy_suffix_first_copy (s : string) (label_deduper : string -> Py.result string) :
  add_copy_suffix (s +:+ " (copy)") label_deduper = label_deduper (s +:+ " (copy 2)").
Proof.
  assert (Happ : forall a b, list_ascii_of_string (a +:+ b)
                             = list_ascii_of_string a ++ list_ascii_of_string b).
  { induction a as [|ch a IH]; intros b; simpl; [reflexivity|]. rewrite IH. reflexivity. }
  assert (Hback : forall l, string_of_list_ascii l = s -> list_ascii_of_string s = l).
  { intros l <-. apply list_ascii_of_string_of_list_ascii. }
  unfold add_copy_suffix, copy_suffix.
  rewrite Happ, rev_app_distr. simpl.
  rewrite ?rev_involutive. f_equal.
  assert (H2 : Py.str_of_nat 2 = "2") by reflexivity. rewrite H2.
  assert (Hsla : forall A B, string_of_list_ascii (A ++ B)
                             = string_of_list_ascii A +:+ string_of_list_ascii B).
  { induction A as [|ch A IH]; intros B; simpl; [reflexivity|]. rewrite IH. reflexivity. }
  rewrite Hsla, string_of_list_ascii_of_string.
  assert (Hassoc : forall a b c : string, (a +:+ b) +:+ c = a +:+ (b +:+ c)).
  { induction a as [|ch a IH]; intros b c; [reflexivity|]. exact (f_equal (String ch) (IH b c)). }
  rewrite Hassoc. reflexivity.
Qed.
Definition sample_group : Node :=
  GroupNode "g" "Tools" [ItemNode "i" "Top" "htop" true false []; SeparatorNode "s"].

Lemma clone_node_fresh_ids_witness :
  clone_node sample_group (fun j => Py.Ok ("new-" +:+ Py.str_of_nat j)) Py.Ok
    = Py.Ok (GroupNode "new-0" "Tools (copy)"
               [ItemNode "new-1" "Top" "htop" true false []; SeparatorNode "new-2"])
  /\ node_ids (GroupNode "new-0" "Tools (copy)"
                 [ItemNode "new-1" "Top" "htop" true false []; SeparatorNode "new-2"])
     = map (fun j => "new-" +:+ Py.str_of_nat j) (seq 0 (length (node_ids sample_group))).
Proof.
  assert (Hc : clone_node sample_group (fun j => Py.Ok ("new-" +:+ Py.str_of_nat j)) Py.Ok
    = Py.Ok (GroupNode "new-0" "Tools (copy)"
               [ItemNode "new-1" "Top" "htop" true false []; SeparatorNode "new-2"]))
    by (vm_compute; reflexivity).
  split; [exact Hc|].
  exact (proj1 (clone_node_fresh_ids sample_group _ (fun j => "new-" +:+ Py.str_of_nat j) Py.Ok Hc)).
Defined.

End CloneExtra.
